(** * PDF field filler: a shallow embedding of [main.py]

    The service downloads a PDF, draws one overlay per field instruction
    (text, or a signature image fetched from a URL), merges the overlays
    onto the pages and uploads the result to a Supabase bucket.

    Numbers are Python [float]s, that is IEEE 754 binary64: they are
    modelled by [spec_float] with [prec = 53] and [emax = 1024], whose
    operations round to nearest, ties to even, as CPython does. *)

From Stdlib Require Import ZArith QArith Lia ZifyNat Bool List Ascii String.
From Stdlib Require Import Floats.SpecFloat.
From stdpp Require Import base option list gmap strings.

Local Open Scope Z_scope.

(** ** Python floats *)

Module Float64.

Definition prec : Z := 53.
Definition emax : Z := 1024.

Abbreviation float64 := spec_float.

Definition add : float64 -> float64 -> float64 := SFadd prec emax.
Definition sub : float64 -> float64 -> float64 := SFsub prec emax.
Definition mul : float64 -> float64 -> float64 := SFmul prec emax.
Definition div : float64 -> float64 -> float64 := SFdiv prec emax.

(** Python's [a < b], [a <= b] and [a == b] on floats. *)
Definition ltb : float64 -> float64 -> bool := SFltb.
Definition leb : float64 -> float64 -> bool := SFleb.
Definition eqb : float64 -> float64 -> bool := SFeqb.

Definition is_nan (f : float64) : bool :=
  match f with S754_nan => true | _ => false end.

(** A float as it is stored: the mantissa is canonical for its exponent. *)
Definition valid (f : float64) : bool := valid_binary prec emax f.

(** An [int] used where a float is expected, as in [x + 2]. *)
Definition of_int (z : Z) : float64 := binary_normalize prec emax z 0 false.

(** The literal [0.6]: the double nearest to six tenths. *)
Definition lit_0_6 : float64 := S754_finite false 5404319552844595 (-53).

(** Builtin [min(a, b)] and [max(a, b)]: the first argument is kept
    unless the second compares strictly smaller (resp. greater). *)
Definition py_min (a b : float64) : float64 := if ltb b a then b else a.
Definition py_max (a b : float64) : float64 := if ltb a b then b else a.

End Float64.

Import Float64.

(** ** Numbers a duck-typed arithmetic function can be run on *)

Class PyNum (T : Type) := {
  num_add : T -> T -> T;
  num_sub : T -> T -> T
}.

#[export] Instance PyNum_float64 : PyNum float64 :=
  {| num_add := Float64.add; num_sub := Float64.sub |}.

(** Exact rationals ([fractions.Fraction]). *)
#[export] Instance PyNum_Q : PyNum Q :=
  {| num_add := Qplus; num_sub := Qminus |}.

(** [PDFFieldFiller.convert_anvil_coordinates] *)
Definition convert_anvil_coordinates {T} `{PyNum T}
    (anvil_y page_height field_height : T) : T :=
  let pdf_y := num_sub (num_sub page_height anvil_y) field_height in
  pdf_y.

(** The font size of a text field, lines 166-167 of [create_overlay]:
    [font_size = min(height * 0.6, 12); font_size = max(font_size, 8)].
    The bounds are the [int]s 12 and 8; Python compares an [int] with a
    [float] by value, and both are floats exactly. *)
Definition text_font_size (height : float64) : float64 :=
  let font_size := py_min (mul height lit_0_6) (of_int 12) in
  let font_size := py_max font_size (of_int 8) in
  font_size.

(** ** Data model *)

Definition bytes := string.

Record FieldRect := {
  x : float64;
  y : float64;
  width : float64;
  height : float64
}.

Record FieldData := {
  field_name : string;
  field_type : string;
  field_page_num : Z;
  field_rect : FieldRect;
  field_answer : string
}.

Record FillPDFRequest := {
  pdf_url : string;
  fields : list FieldData;
  filename : string;
  bucket : option string
}.

Record FillPDFResponse := {
  success : bool;
  message : string;
  resp_pdf_url : option string;
  resp_filename : option string
}.

(** A decoded picture ([PIL.Image]); only its identity matters here. *)
Inductive Image := PILImage (data : bytes).

(** What a [reportlab] canvas has been asked to draw. *)
Inductive CanvasOp :=
| setFont (psfontname : string) (size : float64)
| drawString (x y : float64) (text : string)
| drawImage (image : Image) (x y width height : float64)
            (preserveAspectRatio : bool) (mask : string).

(** The one-page document a canvas is saved as. *)
Record OverlayPage := {
  pagesize : float64 * float64;
  ops : list CanvasOp
}.

(** A page of the source document: its media box, its own content and the
    overlays merged onto it so far, oldest first. *)
Record Page := {
  mediabox_width : float64;
  mediabox_height : float64;
  content : bytes;
  merged : list OverlayPage
}.

Definition merge_page (page : Page) (overlay_page : OverlayPage) : Page :=
  {| mediabox_width := mediabox_width page;
     mediabox_height := mediabox_height page;
     content := content page;
     merged := merged page ++ [overlay_page] |}.

Record Response := {
  status_code : Z;
  text : string;
  json : option string
}.

Record datetime := {
  year : nat; month : nat; day : nat;
  hour : nat; minute : nat; second : nat
}.

(** ** Exceptions *)

Inductive exn :=
| RequestException (url : string)
| UnidentifiedImageError
| ImageSaveError
| DrawImageError
| CanvasError
| PdfReadError
| IndexError
| UploadFailed (response_text : string)
| JSONDecodeError
| SupabaseNotConfigured.

Inductive Result (A : Type) :=
| Ok (a : A)
| Raise (e : exn).
Arguments Ok {A} a.
Arguments Raise {A} e.

(** ** The outside world

    Everything the program asks of the network, the imaging libraries and
    the clock.  [None] (or [false]) stands for the call raising.  Whether
    a canvas accepts a font size, a text position or a picture's rectangle
    is the drawing library's decision (it raises on NaN and on infinities,
    for one), so it is asked of the world as well.  Saving a canvas and
    merging an overlay onto a page are taken to succeed. *)
Record World := {
  requests_get : string -> option bytes;
  requests_post : string -> list (string * string) -> list Page -> option Response;
  Image_open : bytes -> option Image;
  Image_save_ok : Image -> bool;
  drawImage_ok : Image -> float64 -> float64 -> float64 -> float64 -> bool;
  setFont_ok : string -> float64 -> bool;
  drawString_ok : float64 -> float64 -> string -> bool;
  PdfReader : bytes -> option (list Page);
  datetime_now : nat -> datetime;
  timestamp : datetime -> string
}.

(** The mutable state around a request: the working directory, how often
    the clock has been read, and the uploads sent so far (URL and body). *)
Record Sys := {
  files : gmap string Image;
  clock_reads : nat;
  posted : list (string * list Page)
}.

Definition set_files (f : gmap string Image -> gmap string Image) (s : Sys) : Sys :=
  {| files := f (files s); clock_reads := clock_reads s; posted := posted s |}.

(** ** A state and exception monad *)

Definition M (A : Type) : Type := Sys -> Result A * Sys.

Definition ret {A} (a : A) : M A := fun s => (Ok a, s).
Definition raise {A} (e : exn) : M A := fun s => (Raise e, s).
Definition bind {A B} (c : M A) (k : A -> M B) : M B :=
  fun s => match c s with
           | (Ok a, s') => k a s'
           | (Raise e, s') => (Raise e, s')
           end.
(** [try: c except Exception as e: h e] *)
Definition try_except {A} (c : M A) (h : exn -> M A) : M A :=
  fun s => match c s with
           | (Ok a, s') => (Ok a, s')
           | (Raise e, s') => h e s'
           end.

Declare Scope py_scope.
Delimit Scope py_scope with py.
Notation "v <- c ;; k" := (bind c (fun v => k))
  (at level 100, c at next level, right associativity) : py_scope.
Notation "c ;;; k" := (bind c (fun _ => k))
  (at level 100, right associativity) : py_scope.
Local Open Scope py_scope.

(** [for a in l: acc = body acc a], stopping at the first exception. *)
Fixpoint for_each {A B} (body : B -> A -> M B) (l : list A) (acc : B) : M B :=
  match l with
  | [] => ret acc
  | a :: l' => acc' <- body acc a ;; for_each body l' acc'
  end.

(** ** Strings *)

(** [s.startswith('http')] *)
Definition startswith_http (s : string) : bool := String.prefix "http" s.

(** [s.rstrip('/')] *)
Fixpoint rstrip_slash (s : string) : string :=
  match s with
  | EmptyString => EmptyString
  | String c rest =>
      match rstrip_slash rest with
      | EmptyString => if Ascii.eqb c "/"%char then EmptyString else String c EmptyString
      | rest' => String c rest'
      end
  end.

Definition digit (n : nat) : ascii := ascii_of_nat (48 + n mod 10)%nat.

Definition pad2 (n : nat) : string :=
  String (digit (n / 10)) (String (digit n) EmptyString).

Definition pad4 (n : nat) : string :=
  String (digit (n / 1000)) (String (digit (n / 100)) (pad2 n)).

(** [now.strftime("%Y%m%d_%H%M%S")], for the four-digit years the clock
    of a running service shows. *)
Definition strftime (now : datetime) : string :=
  pad4 (year now) +:+ pad2 (month now) +:+ pad2 (day now) +:+ "_" +:+
  pad2 (hour now) +:+ pad2 (minute now) +:+ pad2 (second now).

(** An [Optional[str]] inside an f-string. *)
Definition format_optional (o : option string) : string :=
  match o with Some s => s | None => "None" end.

(** ** The program *)

Section Program.

Variable w : World.

(** [datetime.now()] *)
Definition now : M datetime :=
  fun s => (Ok (datetime_now w (clock_reads s)),
            {| files := files s; clock_reads := S (clock_reads s);
               posted := posted s |}).

(** [img.save(path)]: a failed save leaves no file behind. *)
Definition Image_save (img : Image) (path : string) : M unit :=
  fun s => if Image_save_ok w img
           then (Ok tt, set_files (insert path img) s)
           else (Raise ImageSaveError, s).

(** [can.setFont(psfontname, size)] *)
Definition canvas_setFont (psfontname : string) (size : float64) : M CanvasOp :=
  if setFont_ok w psfontname size then ret (setFont psfontname size)
  else raise CanvasError.

(** [can.drawString(x, y, text)] *)
Definition canvas_drawString (x y : float64) (text : string) : M CanvasOp :=
  if drawString_ok w x y text then ret (drawString x y text)
  else raise CanvasError.

(** [can.drawImage(path, ...)] reads the file at [path]. *)
Definition canvas_drawImage (path : string) (x y width height : float64)
    (preserveAspectRatio : bool) (mask : string) : M CanvasOp :=
  fun s => match files s !! path with
           | Some img =>
               if drawImage_ok w img x y width height
               then (Ok (drawImage img x y width height preserveAspectRatio mask), s)
               else (Raise DrawImageError, s)
           | None => (Raise DrawImageError, s)
           end.

Definition os_path_exists (path : string) : M bool :=
  fun s => (Ok (bool_decide (is_Some (files s !! path))), s).

Definition os_remove (path : string) : M unit :=
  fun s => (Ok tt, set_files (delete path) s).

(** *** SupabaseStorageClient *)

Record SupabaseStorageClient := {
  url : string;
  key : string
}.

Definition SupabaseStorageClient_init (url key : string) : SupabaseStorageClient :=
  {| url := rstrip_slash url; key := key |}.

Definition upload_headers (self : SupabaseStorageClient) : list (string * string) :=
  [ ("Authorization", "Bearer " +:+ key self);
    ("Content-Type", "application/pdf") ].

Definition upload (self : SupabaseStorageClient)
    (bucket path : string) (file_data : list Page) : M string :=
  let upload_url := url self +:+ "/storage/v1/object/" +:+ bucket +:+ "/" +:+ path in
  let headers := upload_headers self in
  fun s =>
    let s' := {| files := files s; clock_reads := clock_reads s;
                 posted := posted s ++ [(upload_url, file_data)] |} in
    match requests_post w upload_url headers file_data with
    | None => (Raise (RequestException upload_url), s')
    | Some response =>
        if negb (bool_decide (status_code response ∈ [200; 201]))
        then (Raise (UploadFailed (text response)), s')
        else match json response with
             | Some body => (Ok body, s')
             | None => (Raise JSONDecodeError, s')
             end
    end.

Definition get_public_url (self : SupabaseStorageClient)
    (bucket path : string) : string :=
  url self +:+ "/storage/v1/object/public/" +:+ bucket +:+ "/" +:+ path.

(** *** PDFFieldFiller *)

Record PDFFieldFiller := { storage : SupabaseStorageClient }.

Definition PDFFieldFiller_init (supabase_url supabase_key : string) : PDFFieldFiller :=
  {| storage := SupabaseStorageClient_init supabase_url supabase_key |}.

Definition download_file (url : string) : M bytes :=
  match requests_get w url with
  | Some content => ret content
  | None => raise (RequestException url)
  end.

(** The test of line 126. *)
Definition is_signature (field_data : FieldData) : bool :=
  bool_decide (field_type field_data ∈ ["signature"; "signatureDate"])
  || startswith_http (field_answer field_data).

(** The test of line 129: the field is drawn as an image. *)
Definition is_image_field (field_data : FieldData) : bool :=
  is_signature field_data && startswith_http (field_answer field_data).

Definition signature_error_label (x y height : float64) : list CanvasOp :=
  [ setFont "Helvetica" (of_int 10);
    drawString (add x (of_int 2)) (add y (div height (of_int 2)))
               "[Signature Error]" ].

Definition create_overlay (field_data : FieldData)
    (page_width page_height : float64) : M OverlayPage :=
  let x := x (field_rect field_data) in
  let anvil_y := y (field_rect field_data) in
  let width := width (field_rect field_data) in
  let height := height (field_rect field_data) in
  let y := convert_anvil_coordinates anvil_y page_height height in
  let answer := field_answer field_data in
  can <-
    (if is_image_field field_data then
       try_except
         (img_data <- download_file answer ;;
          img <- match Image_open w img_data with
                 | Some img => ret img
                 | None => raise UnidentifiedImageError
                 end ;;
          t <- now ;;
          let temp_img_path := "temp_sig_" +:+ timestamp w t +:+ ".png" in
          Image_save img temp_img_path ;;;
          let padding := of_int 2 in
          op <- canvas_drawImage temp_img_path
                  (add x padding) (add y padding)
                  (sub width (mul (of_int 2) padding))
                  (sub height (mul (of_int 2) padding))
                  true "auto" ;;
          e <- os_path_exists temp_img_path ;;
          (if e : bool then os_remove temp_img_path else ret tt) ;;;
          ret [op])
         (fun _ =>
            op1 <- canvas_setFont "Helvetica" (of_int 10) ;;
            op2 <- canvas_drawString (add x (of_int 2))
                     (add y (div height (of_int 2))) "[Signature Error]" ;;
            ret [op1; op2])
     else
       let font_size := text_font_size height in
       op1 <- canvas_setFont "Helvetica" font_size ;;
       let text_y :=
         add (add y (div (sub height font_size) (of_int 2))) (of_int 2) in
       op2 <- canvas_drawString (add x (of_int 3)) text_y answer ;;
       ret [op1; op2]) ;;
  ret {| pagesize := (page_width, page_height); ops := can |}.

(** Lines 188-193: the dictionary from page number to its fields. *)
Definition group_fields (fields_data : list FieldData) : gmap Z (list FieldData) :=
  foldl (fun fields_by_page field =>
           let page_num := field_page_num field in
           let fields_by_page :=
             if bool_decide (page_num ∈ dom fields_by_page) then fields_by_page
             else <[page_num := []]> fields_by_page in
           <[page_num := (fields_by_page !!! page_num) ++ [field]]> fields_by_page)
        ∅ fields_data.

(** The body of the loop of line 198, for one [page_num]. *)
Definition process_page (pages : list Page)
    (fields_by_page : gmap Z (list FieldData))
    (pdf_writer : list Page) (page_num : nat) : M (list Page) :=
  page <- match pages !! page_num with
          | Some page => ret page
          | None => raise IndexError
          end ;;
  page <-
    (if bool_decide (Z.of_nat page_num ∈ dom fields_by_page) then
       let page_width := mediabox_width page in
       let page_height := mediabox_height page in
       for_each (fun page field =>
                   overlay_page <- create_overlay field page_width page_height ;;
                   ret (merge_page page overlay_page))
                (fields_by_page !!! Z.of_nat page_num) page
     else ret page) ;;
  ret (pdf_writer ++ [page]).

Definition fill_pdf (pdf_url : string) (fields_data : list FieldData) : M (list Page) :=
  pdf_bytes <- download_file pdf_url ;;
  pages <- match PdfReader w pdf_bytes with
           | Some pages => ret pages
           | None => raise PdfReadError
           end ;;
  let fields_by_page := group_fields fields_data in
  for_each (process_page pages fields_by_page) (seq 0 (length pages)) [].

Definition upload_to_supabase (self : PDFFieldFiller)
    (pdf_data : list Page) (filename bucket : string) : M string :=
  t <- now ;;
  let timestamp := strftime t in
  let unique_filename := "filled_" +:+ timestamp +:+ "_" +:+ filename in
  upload (storage self) bucket unique_filename pdf_data ;;;
  let public_url := get_public_url (storage self) bucket unique_filename in
  ret public_url.

(** *** The endpoint [POST /fill-pdf] *)

Inductive HTTPResult :=
| HTTP200 (body : FillPDFResponse)
| HTTPException (status_code : Z) (detail : exn).

Definition fill_pdf_endpoint (SUPABASE_URL SUPABASE_KEY : string)
    (request : FillPDFRequest) : Sys -> HTTPResult * Sys :=
  fun s =>
    let handler : M FillPDFResponse :=
      (if bool_decide (SUPABASE_URL = "") || bool_decide (SUPABASE_KEY = "")
       then raise SupabaseNotConfigured else ret tt) ;;;
      let filler := PDFFieldFiller_init SUPABASE_URL SUPABASE_KEY in
      filled_pdf <- fill_pdf (pdf_url request) (fields request) ;;
      public_url <- upload_to_supabase filler filled_pdf (filename request)
                      (format_optional (bucket request)) ;;
      ret {| success := true;
             message := "PDF 填寫成功";
             resp_pdf_url := Some public_url;
             resp_filename := Some (filename request) |} in
    match handler s with
    | (Ok body, s') => (HTTP200 body, s')
    | (Raise e, s') => (HTTPException 500 e, s')
    end.

End Program.

(** ** Notions the properties are stated with *)

(** The fields of [fields_data] that name page [page_num], in input order. *)
Definition bucket_of (page_num : Z) (fields_data : list FieldData) : list FieldData :=
  filter (fun field => field_page_num field = page_num) fields_data.

(** [overlay_page] is what [create_overlay] returns for [field_data] on a
    page of the given size, from some state of the world. *)
Definition rendered (w : World) (page_width page_height : float64)
    (field_data : FieldData) (overlay_page : OverlayPage) : Prop :=
  exists s s', create_overlay w field_data page_width page_height s
               = (Ok overlay_page, s').

(** [page] with [overlays] merged onto it, one after the other. *)
Definition merge_pages (page : Page) (overlays : list OverlayPage) : Page :=
  foldl merge_page page overlays.

(** The path at which [create_overlay] stages a signature image when it
    reads the clock in state [s]. *)
Definition temp_img_path (w : World) (s : Sys) : string :=
  "temp_sig_" +:+ timestamp w (datetime_now w (clock_reads s)) +:+ ".png".

(** The name under which [upload_to_supabase] stores a document when the
    clock has been read [n] times before. *)
Definition unique_filename_at (w : World) (n : nat) (filename : string) : string :=
  "filled_" +:+ strftime (datetime_now w n) +:+ "_" +:+ filename.

Definition is_2xx (status : Z) : bool := (200 <=? status) && (status <? 300).

Definition is_alpha (c : ascii) : bool :=
  let n := nat_of_ascii c in
  ((65 <=? n) && (n <=? 90) || (97 <=? n) && (n <=? 122))%nat.

Definition is_digit (c : ascii) : bool :=
  let n := nat_of_ascii c in ((48 <=? n) && (n <=? 57))%nat.

Definition is_scheme_char (c : ascii) : bool :=
  is_alpha c || is_digit c
  || Ascii.eqb c "+"%char || Ascii.eqb c "-"%char || Ascii.eqb c "."%char.

(** The characters up to the first colon are all scheme characters. *)
Fixpoint scheme_tail (s : string) : bool :=
  match s with
  | EmptyString => false
  | String c s' =>
      if Ascii.eqb c ":"%char then true else is_scheme_char c && scheme_tail s'
  end.

(** Modelled from the spec: the renderer's notion of a syntactically valid
    absolute URL is not in the source, which only tests a prefix.  Following
    the spec's words (scheme present), a string is an absolute URL when
    it starts with a scheme, a letter followed by letters, digits, plus,
    minus or dot, and then a colon. *)
Definition is_absolute_url (s : string) : bool :=
  match s with
  | EmptyString => false
  | String c s' => is_alpha c && scheme_tail s'
  end.

Definition all_digits (s : string) : bool :=
  forallb is_digit (list_ascii_of_string s).

(** The shape [YYYYMMDD_HHMMSS]. *)
Definition is_YYYYMMDD_HHMMSS (s : string) : bool :=
  (String.length s =? 15)%nat
  && all_digits (substring 0 8 s)
  && String.eqb (substring 8 1 s) "_"
  && all_digits (substring 9 6 s).

(** A float that is neither NaN nor an infinity. *)
Definition is_finite (f : float64) : bool :=
  match f with
  | S754_zero _ | S754_finite _ _ _ => true
  | _ => false
  end.

(** [k] slashes in a row. *)
Fixpoint slashes (k : nat) : string :=
  match k with
  | O => EmptyString
  | S k' => String "/"%char (slashes k')
  end.

(** A date and time with a four-digit year, as the clock of a running
    service shows. *)
Definition datetime_ok (t : datetime) : Prop :=
  (1000 <= year t < 100 * 100 /\ 1 <= month t <= 12 /\ 1 <= day t <= 31 /\
   hour t <= 23 /\ minute t <= 59 /\ second t <= 59)%nat.

(** Running [c] from [s] leaves a state related to [s] by [R], whether it
    returns or raises. *)
Definition preserves {A} (R : Sys -> Sys -> Prop) (c : M A) : Prop :=
  forall s r s', c s = (r, s') -> R s s'.

(** Whatever [c] raises satisfies [P]. *)
Definition raises_only {A} (P : exn -> Prop) (c : M A) : Prop :=
  forall s e s', c s = (Raise e, s') -> P e.

(** The overlay of an image field whose picture was drawn: the picture,
    inset by the padding of 2 on every side. *)
Definition image_overlay (img : Image) (field_data : FieldData)
    (page_width page_height : float64) : OverlayPage :=
  {| pagesize := (page_width, page_height);
     ops := [ drawImage img
                (add (x (field_rect field_data)) (of_int 2))
                (add (convert_anvil_coordinates (y (field_rect field_data))
                        page_height (height (field_rect field_data)))
                     (of_int 2))
                (sub (width (field_rect field_data)) (of_int 4))
                (sub (height (field_rect field_data)) (of_int 4))
                true "auto" ] |}.

(** The overlay of an image field whose picture could not be drawn: the
    label in Helvetica 10, 2 right of the field's left edge and half the
    field's height above its lower edge. *)
Definition error_overlay (field_data : FieldData)
    (page_width page_height : float64) : OverlayPage :=
  {| pagesize := (page_width, page_height);
     ops := [ setFont "Helvetica" (of_int 10);
              drawString
                (add (x (field_rect field_data)) (of_int 2))
                (add (sub (sub page_height (y (field_rect field_data)))
                          (height (field_rect field_data)))
                     (div (height (field_rect field_data)) (of_int 2)))
                "[Signature Error]" ] |}.

(** The overlay of a text field: the answer in Helvetica at the clamped
    size, 3 right of the field's left edge, centred in its height. *)
Definition text_overlay (field_data : FieldData)
    (page_width page_height : float64) : OverlayPage :=
  {| pagesize := (page_width, page_height);
     ops := [ setFont "Helvetica" (text_font_size (height (field_rect field_data)));
              drawString
                (add (x (field_rect field_data)) (of_int 3))
                (add (add (sub (sub page_height (y (field_rect field_data)))
                               (height (field_rect field_data)))
                          (div (sub (height (field_rect field_data))
                                    (text_font_size (height (field_rect field_data))))
                               (of_int 2)))
                     (of_int 2))
                (field_answer field_data) ] |}.

(** The canvas accepts the two calls that draw a field as text. *)
Definition text_drawable (w : World) (field_data : FieldData)
    (page_height : float64) : bool :=
  setFont_ok w "Helvetica" (text_font_size (height (field_rect field_data)))
  && drawString_ok w
       (add (x (field_rect field_data)) (of_int 3))
       (add (add (sub (sub page_height (y (field_rect field_data)))
                      (height (field_rect field_data)))
                 (div (sub (height (field_rect field_data))
                           (text_font_size (height (field_rect field_data))))
                      (of_int 2)))
            (of_int 2))
       (field_answer field_data).

(** The canvas accepts the two calls that draw the error label. *)
Definition label_drawable (w : World) (field_data : FieldData)
    (page_height : float64) : bool :=
  setFont_ok w "Helvetica" (of_int 10)
  && drawString_ok w
       (add (x (field_rect field_data)) (of_int 2))
       (add (sub (sub page_height (y (field_rect field_data)))
                 (height (field_rect field_data)))
            (div (height (field_rect field_data)) (of_int 2)))
       "[Signature Error]".

(** What the handler of [create_overlay] ends in. *)
Definition label_result (w : World) (field_data : FieldData)
    (page_width page_height : float64) : Result OverlayPage :=
  if label_drawable w field_data page_height
  then Ok (error_overlay field_data page_width page_height)
  else Raise CanvasError.

(** One of the four steps that put the picture of an image field on the
    canvas fails: fetching it, decoding it, saving it to the temporary
    path, or drawing it in the field's rectangle inset by 2. *)
Definition picture_fails (w : World) (field_data : FieldData)
    (page_height : float64) : Prop :=
  requests_get w (field_answer field_data) = None \/
  exists img_data,
    requests_get w (field_answer field_data) = Some img_data /\
    (Image_open w img_data = None \/
     exists img,
       Image_open w img_data = Some img /\
       (Image_save_ok w img = false \/
        drawImage_ok w img
          (add (x (field_rect field_data)) (of_int 2))
          (add (sub (sub page_height (y (field_rect field_data)))
                    (height (field_rect field_data))) (of_int 2))
          (sub (width (field_rect field_data)) (of_int 4))
          (sub (height (field_rect field_data)) (of_int 4)) = false)).

(** Enough for [create_overlay] to return: the text of a text field, or the
    error label of an image field, is accepted by the canvas. *)
Definition draw_accepted (w : World) (field_data : FieldData)
    (page_height : float64) : bool :=
  if is_image_field field_data
  then label_drawable w field_data page_height
  else text_drawable w field_data page_height.

(** [draw_accepted] for every instruction, on the page it names. *)
Definition draws_accepted (w : World) (fields_data : list FieldData)
    (pages : list Page) : Prop :=
  forall (i : nat) page field,
    pages !! i = Some page -> field ∈ fields_data ->
    field_page_num field = Z.of_nat i ->
    draw_accepted w field (mediabox_height page) = true.

(** ** The endpoint [GET /health] *)

Record HealthStatus := {
  health_status : string;
  supabase_configured : bool;
  health_timestamp : string
}.

(** [bool(s)] for a string. *)
Definition py_bool (s : string) : bool := negb (bool_decide (s = "")).

(** [a and b] for strings: [a] when it is empty, else [b]. *)
Definition py_and (a b : string) : string := if py_bool a then b else a.

(** [health_check]; how [isoformat] prints a time is left to the caller. *)
Definition health_check (w : World) (isoformat : datetime -> string)
    (SUPABASE_URL SUPABASE_KEY : string) : M HealthStatus :=
  t <- now w ;;
  ret {| health_status := "healthy";
         supabase_configured := py_bool (py_and SUPABASE_URL SUPABASE_KEY);
         health_timestamp := isoformat t |}.

(** * Example inputs *)

(** 128.2, 792.0 (a US Letter page) and 18.1 as binary64 values. *)
Definition f_128_2 : float64 := S754_finite false 4510636501788262 (-45).
Definition f_792 : float64 := S754_finite false 6966505673588736 (-43).
Definition f_18_1 : float64 := S754_finite false 5094697078462874 (-48).

Definition example_rect : FieldRect :=
  {| x := of_int 50; y := of_int 100; width := of_int 200; height := of_int 20 |}.

Definition example_text_field : FieldData :=
  {| field_name := "name"; field_type := "text"; field_page_num := 0;
     field_rect := example_rect; field_answer := "Jane Doe" |}.

(** A signature whose image cannot be fetched. *)
Definition example_unreachable_signature : FieldData :=
  {| field_name := "sig"; field_type := "signature"; field_page_num := 0;
     field_rect := example_rect;
     field_answer := "http://example.com/missing.png" |}.

(** A signature whose image is fetched, decoded and saved, but which the
    canvas then fails to draw. *)
Definition example_undrawable_signature : FieldData :=
  {| field_name := "sig"; field_type := "signature"; field_page_num := 0;
     field_rect := example_rect;
     field_answer := "http://example.com/undrawable.png" |}.

(** A rectangle of finite, non-negative numbers whose lower edge lies
    below every float: y and height are both the largest float. *)
Definition max_float : float64 := S754_finite false 9007199254740991 971.

Definition example_huge_rect : FieldRect :=
  {| x := of_int 50; y := max_float; width := of_int 200; height := max_float |}.

Definition example_huge_text_field : FieldData :=
  {| field_name := "name"; field_type := "text"; field_page_num := 0;
     field_rect := example_huge_rect; field_answer := "Jane Doe" |}.

Definition example_huge_signature : FieldData :=
  {| field_name := "sig"; field_type := "signature"; field_page_num := 0;
     field_rect := example_huge_rect;
     field_answer := "http://example.com/missing.png" |}.

(** A field naming page 7 of a shorter document. *)
Definition example_stray_field : FieldData :=
  {| field_name := "stray"; field_type := "text"; field_page_num := 7;
     field_rect := example_rect; field_answer := "nowhere" |}.

(** A kind of [signature] with an [ftp] URL, and a text kind whose answer
    merely begins with the letters [http]. *)
Definition example_ftp_field : FieldData :=
  {| field_name := "sig"; field_type := "signature"; field_page_num := 0;
     field_rect := example_rect;
     field_answer := "ftp://example.com/sig.png" |}.

Definition example_httpx_field : FieldData :=
  {| field_name := "note"; field_type := "text"; field_page_num := 0;
     field_rect := example_rect; field_answer := "httpx" |}.

Definition example_page (body : bytes) : Page :=
  {| mediabox_width := of_int 612; mediabox_height := f_792;
     content := body; merged := [] |}.

Definition example_pages : list Page :=
  [example_page "page 0"; example_page "page 1"; example_page "page 2"].

Definition example_response (status : Z) : Response :=
  {| status_code := status; text := "body"; json := Some "{}" |}.

(** A world with one three-page document, one signature image that cannot
    be drawn, a canvas that takes finite sizes and positions only, and a
    storage service that answers 200. *)
Definition example_world : World :=
  {| requests_get := fun url =>
       if String.eqb url "http://example.com/doc.pdf" then Some "%PDF"
       else if String.eqb url "http://example.com/undrawable.png" then Some "PNG"
       else None;
     requests_post := fun _ _ _ => Some (example_response 200);
     Image_open := fun data =>
       if String.eqb data "PNG" then Some (PILImage data) else None;
     Image_save_ok := fun _ => true;
     drawImage_ok := fun _ _ _ _ _ => false;
     setFont_ok := fun _ size => is_finite size;
     drawString_ok := fun x y _ => is_finite x && is_finite y;
     PdfReader := fun data =>
       if String.eqb data "%PDF" then Some example_pages else None;
     datetime_now := fun n =>
       {| year := 2024; month := 3; day := 9;
          hour := 7; minute := 5; second := n mod 60 |};
     timestamp := fun t => "1709967900." +:+ pad2 (second t) |}.

(** The same world with a storage service that answers 204 No Content. *)
Definition example_world_204 : World :=
  {| requests_get := requests_get example_world;
     requests_post := fun _ _ _ => Some (example_response 204);
     Image_open := Image_open example_world;
     Image_save_ok := Image_save_ok example_world;
     drawImage_ok := drawImage_ok example_world;
     setFont_ok := setFont_ok example_world;
     drawString_ok := drawString_ok example_world;
     PdfReader := PdfReader example_world;
     datetime_now := datetime_now example_world;
     timestamp := timestamp example_world |}.

Definition empty_sys : Sys := {| files := ∅; clock_reads := 0; posted := [] |}.

Definition example_request (fields_data : list FieldData) : FillPDFRequest :=
  {| pdf_url := "http://example.com/doc.pdf"; fields := fields_data;
     filename := "form.pdf"; bucket := Some "finishpdf" |}.

Definition example_client : SupabaseStorageClient :=
  SupabaseStorageClient_init "https://example.supabase.co/" "secret".

(** A clock that stands still within one second. *)
Definition example_world_same_second : World :=
  {| requests_get := requests_get example_world;
     requests_post := requests_post example_world;
     Image_open := Image_open example_world;
     Image_save_ok := Image_save_ok example_world;
     drawImage_ok := fun _ _ _ _ _ => true;
     setFont_ok := setFont_ok example_world;
     drawString_ok := drawString_ok example_world;
     PdfReader := PdfReader example_world;
     datetime_now := fun _ =>
       {| year := 2024; month := 3; day := 9;
          hour := 7; minute := 5; second := 0 |};
     timestamp := timestamp example_world |}.

(** * Properties *)

(** ** Facts about binary64 *)

Section Float64Facts.

Lemma shr_1_nonneg mrs : 0 <= shr_m mrs -> 0 <= shr_m (shr_1 mrs).
Proof.
  destruct mrs as [m r s]; simpl.
  destruct m as [|p|p]; [easy| |intros; lia].
  destruct p; easy.
Qed.

Lemma iter_shr_1_nonneg p : forall mrs,
  0 <= shr_m mrs -> 0 <= shr_m (SpecFloat.iter_pos shr_1 p mrs).
Proof.
  induction p as [p IH|p IH|]; simpl; intros mrs Hm.
  - apply IH, IH, shr_1_nonneg, Hm.
  - apply IH, IH, Hm.
  - apply shr_1_nonneg, Hm.
Qed.

Lemma shr_fexp_nonneg m e l :
  0 <= m -> 0 <= shr_m (fst (shr_fexp prec emax m e l)).
Proof.
  intros Hm. unfold shr_fexp, shr.
  assert (H0 : 0 <= shr_m (shr_record_of_loc m l))
    by (destruct l as [|[]]; exact Hm).
  destruct (fexp prec emax (Zdigits2 m + e) - e); simpl; auto.
  apply iter_shr_1_nonneg, H0.
Qed.

Lemma round_nearest_even_nonneg m l : 0 <= m -> 0 <= round_nearest_even m l.
Proof.
  intros Hm. destruct l as [|[]]; simpl; try lia.
  destruct (Z.even m); lia.
Qed.

(** Rounding a non-negative mantissa never yields NaN. *)
Lemma binary_round_aux_not_nan sx mx ex lx :
  0 <= mx -> is_nan (binary_round_aux prec emax sx mx ex lx) = false.
Proof.
  intros Hm. unfold binary_round_aux.
  pose proof (shr_fexp_nonneg mx ex lx Hm) as H1.
  destruct (shr_fexp prec emax mx ex lx) as [mrs' e']; simpl in H1.
  pose proof (shr_fexp_nonneg _ e' loc_Exact
                (round_nearest_even_nonneg _ (loc_of_shr_record mrs') H1)) as H2.
  destruct (shr_fexp prec emax _ e' loc_Exact) as [mrs'' e'']; simpl in H2.
  destruct (shr_m mrs'') as [|m|m]; [reflexivity| |lia].
  destruct (e'' <=? emax - prec); reflexivity.
Qed.

(** The literal is six tenths, correctly rounded. *)
Lemma lit_0_6_correct : div (of_int 6) (of_int 10) = lit_0_6.
Proof. reflexivity. Qed.

Lemma mul_lit_not_nan h : is_nan h = false -> is_nan (mul h lit_0_6) = false.
Proof.
  destruct h as [s|s| |s m e]; simpl; try easy.
  intros _. apply binary_round_aux_not_nan. lia.
Qed.

Lemma SFcompare_antisym a b :
  SFcompare b a = option_map CompOpp (SFcompare a b).
Proof.
  destruct a as [sa|sa| |sa ma ea], b as [sb|sb| |sb mb eb]; simpl;
    try reflexivity; try (destruct sa; reflexivity);
    try (destruct sb; reflexivity);
    try (destruct sa, sb; reflexivity).
  f_equal. rewrite (Z.compare_antisym ea eb).
  pose proof (Pos.compare_cont_antisym ma mb Eq) as Hm; simpl in Hm.
  rewrite <- Hm.
  destruct sa, sb; simpl; try reflexivity;
    destruct (ea ?= eb); reflexivity.
Qed.

Lemma SFcompare_refl a : is_nan a = false -> SFcompare a a = Some Eq.
Proof.
  destruct a as [s|s| |s m e]; simpl; intros H; try easy.
  - destruct s; reflexivity.
  - rewrite Z.compare_refl, Pos.compare_cont_refl. destruct s; reflexivity.
Qed.

Lemma SFcompare_is_Some a b :
  is_nan a = false -> is_nan b = false -> exists c, SFcompare a b = Some c.
Proof.
  destruct a as [sa|sa| |sa ma ea], b as [sb|sb| |sb mb eb]; simpl;
    intros Ha Hb; try discriminate; eauto.
Qed.

End Float64Facts.

(** ** The coordinate mapper *)

(** C1, as amended.  The mapper has no error case and returns the
    page height minus the top-left y minus the element height, each
    subtraction rounded to binary64; on exact numbers (rationals) the result
    plus the top-left y plus the element height is the page height again. *)
Theorem convert_anvil_coordinates_spec :
  (forall anvil_y page_height field_height : float64,
     convert_anvil_coordinates anvil_y page_height field_height
     = sub (sub page_height anvil_y) field_height) /\
  (forall anvil_y page_height field_height : Q,
     (convert_anvil_coordinates anvil_y page_height field_height
        == page_height - anvil_y - field_height)%Q /\
     (convert_anvil_coordinates anvil_y page_height field_height
        + anvil_y + field_height == page_height)%Q).
Proof.
  split.
  - reflexivity.
  - intros anvil_y page_height field_height.
    unfold convert_anvil_coordinates; simpl. split; ring.
Qed.

(** C1 fails on floats: for a field 18.1 high placed 128.2 below the top of
    a 792 point page, adding the top-left y and the height back to the
    result gives 791.9999999999999, which does not compare equal to 792. *)
Lemma convert_anvil_coordinates_roundtrip_fails :
  valid f_128_2 = true /\ valid f_792 = true /\ valid f_18_1 = true /\
  convert_anvil_coordinates f_128_2 f_792 f_18_1
    = S754_finite false 5679637264439705 (-43) /\
  add (add (convert_anvil_coordinates f_128_2 f_792 f_18_1) f_128_2) f_18_1
    = S754_finite false 6966505673588735 (-43) /\
  eqb (add (add (convert_anvil_coordinates f_128_2 f_792 f_18_1) f_128_2) f_18_1)
      f_792 = false.
Proof. vm_compute. repeat split. Qed.

(** ** The text font size *)

Lemma of_int_8 : of_int 8 = S754_finite false 4503599627370496 (-49).
Proof. reflexivity. Qed.

Lemma of_int_12 : of_int 12 = S754_finite false 6755399441055744 (-49).
Proof. reflexivity. Qed.

(** The clamp works for every height that is a number, infinite ones
    included. *)
Lemma text_font_size_clamped_not_nan (height : float64) :
  is_nan height = false ->
  leb (of_int 8) (text_font_size height) = true /\
  leb (text_font_size height) (of_int 12) = true /\
  (leb (of_int 8) (mul height lit_0_6) && leb (mul height lit_0_6) (of_int 12) = true ->
   text_font_size height = mul height lit_0_6) /\
  (eqb (text_font_size height) (mul height lit_0_6) = true ->
   leb (of_int 8) (mul height lit_0_6) && leb (mul height lit_0_6) (of_int 12) = true).
Proof.
  intros Hn. pose proof (mul_lit_not_nan _ Hn) as Hv.
  unfold text_font_size. generalize dependent (mul height lit_0_6).
  intros v Hv. rewrite of_int_8, of_int_12.
  set (c8 := S754_finite false 4503599627370496 (-49)).
  set (c12 := S754_finite false 6755399441055744 (-49)).
  destruct (SFcompare_is_Some v c12 Hv eq_refl) as [a Ha].
  destruct (SFcompare_is_Some v c8 Hv eq_refl) as [b Hb].
  pose proof (SFcompare_antisym v c12) as Ha'. rewrite Ha in Ha'.
  pose proof (SFcompare_antisym v c8) as Hb'. rewrite Hb in Hb'.
  pose proof (SFcompare_refl v Hv) as Hr.
  assert (H1 : SFcompare c12 c8 = Some Gt) by reflexivity.
  assert (H2 : SFcompare c8 c12 = Some Lt) by reflexivity.
  assert (H3 : SFcompare c8 c8 = Some Eq) by reflexivity.
  assert (H4 : SFcompare c12 c12 = Some Eq) by reflexivity.
  unfold py_min, py_max, ltb, leb, eqb, SFltb, SFleb, SFeqb.
  destruct a, b; cbn [option_map CompOpp] in Ha', Hb';
    repeat (progress (rewrite ?Ha, ?Ha', ?Hb, ?Hb', ?Hr, ?H1, ?H2, ?H3, ?H4;
                      cbv beta iota));
    repeat split; auto; discriminate.
Qed.

Lemma leb_0_not_nan (height : float64) :
  leb (of_int 0) height = true -> is_nan height = false.
Proof. destruct height; [reflexivity|reflexivity|discriminate|reflexivity]. Qed.

(** C7.  For every height of a field rectangle, that is every height that
    is at least 0, the font size of a text field lies in [8, 12]; it is
    [height * 0.6] whenever that product lies in [8, 12], and it compares
    equal to the product only then. *)
Theorem text_font_size_clamped (height : float64) :
  leb (of_int 0) height = true ->
  leb (of_int 8) (text_font_size height) = true /\
  leb (text_font_size height) (of_int 12) = true /\
  (leb (of_int 8) (mul height lit_0_6) && leb (mul height lit_0_6) (of_int 12) = true ->
   text_font_size height = mul height lit_0_6) /\
  (eqb (text_font_size height) (mul height lit_0_6) = true ->
   leb (of_int 8) (mul height lit_0_6) && leb (mul height lit_0_6) (of_int 12) = true).
Proof.
  intros Hpos. apply text_font_size_clamped_not_nan, leb_0_not_nan, Hpos.
Qed.

Lemma text_font_size_clamped_witness :
  leb (of_int 0) (of_int 15) = true /\
  text_font_size (of_int 15) = mul (of_int 15) lit_0_6 /\
  leb (of_int 8) (text_font_size (of_int 15)) = true /\
  leb (text_font_size (of_int 15)) (of_int 12) = true.
Proof.
  split; [reflexivity|].
  destruct (text_font_size_clamped (of_int 15) eq_refl) as (H1 & H2 & H3 & _).
  split; [apply H3; reflexivity|]. split; assumption.
Defined.

(** A NaN height, which the invariant of a rectangle rules out, is the one
    input on which the clamp does nothing: every comparison with NaN is
    false, so [min] and [max] keep their first argument. *)
Lemma text_font_size_nan :
  leb (of_int 0) S754_nan = false /\
  text_font_size S754_nan = S754_nan.
Proof. repeat split. Qed.

(** ** Runs of [create_overlay] *)

Section OverlayRuns.

Variable w : World.

Lemma bind_Ok {A B} (c : M A) (k : A -> M B) s a s1 :
  c s = (Ok a, s1) -> bind c k s = k a s1.
Proof. intros H. unfold bind. rewrite H. reflexivity. Qed.

Lemma bind_Raise {A B} (c : M A) (k : A -> M B) s e s1 :
  c s = (Raise e, s1) -> bind c k s = (Raise e, s1).
Proof. intros H. unfold bind. rewrite H. reflexivity. Qed.

Lemma is_image_field_http field_data :
  startswith_http (field_answer field_data) = true ->
  is_image_field field_data = true.
Proof.
  intros H. unfold is_image_field, is_signature.
  rewrite H, orb_true_r. reflexivity.
Qed.

Lemma is_image_field_text field_data :
  startswith_http (field_answer field_data) = false ->
  is_image_field field_data = false.
Proof. intros H. unfold is_image_field. rewrite H, andb_false_r. reflexivity. Qed.

(** A text field: the two drawing calls, outside any handler. *)
Lemma create_overlay_text_run field_data page_width page_height s :
  startswith_http (field_answer field_data) = false ->
  create_overlay w field_data page_width page_height s =
  (if text_drawable w field_data page_height
   then Ok (text_overlay field_data page_width page_height)
   else Raise CanvasError, s).
Proof.
  intros Hhttp. unfold create_overlay, text_drawable.
  rewrite (is_image_field_text _ Hhttp).
  unfold bind, canvas_setFont, canvas_drawString, ret, raise.
  destruct (setFont_ok w _ _); [|reflexivity].
  destruct (drawString_ok w _ _ _); reflexivity.
Qed.

(** An image field, step by step.  The handler draws the label, and what
    it raises leaves [create_overlay]. *)
Lemma create_overlay_fetch_fails field_data page_width page_height s :
  startswith_http (field_answer field_data) = true ->
  requests_get w (field_answer field_data) = None ->
  create_overlay w field_data page_width page_height s =
  (label_result w field_data page_width page_height, s).
Proof.
  intros Hhttp Hget. unfold create_overlay, label_result, label_drawable.
  rewrite (is_image_field_http _ Hhttp).
  unfold try_except, bind, download_file, canvas_setFont, canvas_drawString,
    ret, raise.
  rewrite Hget.
  destruct (setFont_ok w _ _); [|reflexivity].
  destruct (drawString_ok w _ _ _); reflexivity.
Qed.

Lemma create_overlay_decode_fails field_data page_width page_height s img_data :
  startswith_http (field_answer field_data) = true ->
  requests_get w (field_answer field_data) = Some img_data ->
  Image_open w img_data = None ->
  create_overlay w field_data page_width page_height s =
  (label_result w field_data page_width page_height, s).
Proof.
  intros Hhttp Hget Hopen. unfold create_overlay, label_result, label_drawable.
  rewrite (is_image_field_http _ Hhttp).
  unfold try_except, bind, download_file, canvas_setFont, canvas_drawString,
    ret, raise.
  rewrite Hget, Hopen.
  destruct (setFont_ok w _ _); [|reflexivity].
  destruct (drawString_ok w _ _ _); reflexivity.
Qed.

Lemma create_overlay_save_fails field_data page_width page_height s img_data img :
  startswith_http (field_answer field_data) = true ->
  requests_get w (field_answer field_data) = Some img_data ->
  Image_open w img_data = Some img ->
  Image_save_ok w img = false ->
  create_overlay w field_data page_width page_height s =
  (label_result w field_data page_width page_height,
   {| files := files s; clock_reads := S (clock_reads s); posted := posted s |}).
Proof.
  intros Hhttp Hget Hopen Hsave.
  unfold create_overlay, label_result, label_drawable.
  rewrite (is_image_field_http _ Hhttp).
  unfold try_except, bind, download_file, now, Image_save, canvas_setFont,
    canvas_drawString, ret, raise.
  rewrite Hget, Hopen, Hsave.
  destruct (setFont_ok w _ _); [|reflexivity].
  destruct (drawString_ok w _ _ _); reflexivity.
Qed.

Lemma create_overlay_draw_fails field_data page_width page_height s img_data img :
  startswith_http (field_answer field_data) = true ->
  requests_get w (field_answer field_data) = Some img_data ->
  Image_open w img_data = Some img ->
  Image_save_ok w img = true ->
  drawImage_ok w img
    (add (x (field_rect field_data)) (of_int 2))
    (add (sub (sub page_height (y (field_rect field_data)))
              (height (field_rect field_data))) (of_int 2))
    (sub (width (field_rect field_data)) (of_int 4))
    (sub (height (field_rect field_data)) (of_int 4)) = false ->
  create_overlay w field_data page_width page_height s =
  (label_result w field_data page_width page_height,
   {| files := <[temp_img_path w s := img]> (files s);
      clock_reads := S (clock_reads s); posted := posted s |}).
Proof.
  intros Hhttp Hget Hopen Hsave Hdraw.
  unfold create_overlay, label_result, label_drawable.
  rewrite (is_image_field_http _ Hhttp).
  unfold try_except, bind, download_file, now, Image_save, canvas_drawImage,
    canvas_setFont, canvas_drawString, ret, raise, set_files.
  rewrite Hget, Hopen, Hsave. cbn [files clock_reads posted].
  rewrite lookup_insert_eq. change (mul (of_int 2) (of_int 2)) with (of_int 4).
  unfold convert_anvil_coordinates. cbn [num_sub PyNum_float64].
  fold (temp_img_path w s). rewrite Hdraw.
  destruct (setFont_ok w _ _); [|reflexivity].
  destruct (drawString_ok w _ _ _); reflexivity.
Qed.

Lemma create_overlay_drawn_run field_data page_width page_height s img_data img :
  startswith_http (field_answer field_data) = true ->
  requests_get w (field_answer field_data) = Some img_data ->
  Image_open w img_data = Some img ->
  Image_save_ok w img = true ->
  drawImage_ok w img
    (add (x (field_rect field_data)) (of_int 2))
    (add (sub (sub page_height (y (field_rect field_data)))
              (height (field_rect field_data))) (of_int 2))
    (sub (width (field_rect field_data)) (of_int 4))
    (sub (height (field_rect field_data)) (of_int 4)) = true ->
  create_overlay w field_data page_width page_height s =
  (Ok (image_overlay img field_data page_width page_height),
   {| files := delete (temp_img_path w s) (files s);
      clock_reads := S (clock_reads s);
      posted := posted s |}).
Proof.
  intros Hhttp Hget Hopen Hsave Hdraw.
  unfold create_overlay. rewrite (is_image_field_http _ Hhttp).
  unfold try_except, bind, download_file, now, Image_save, canvas_drawImage,
    os_path_exists, os_remove, ret, raise, set_files.
  rewrite Hget, Hopen, Hsave. cbn [files clock_reads posted].
  rewrite lookup_insert_eq. change (mul (of_int 2) (of_int 2)) with (of_int 4).
  unfold convert_anvil_coordinates. cbn [num_sub PyNum_float64].
  rewrite Hdraw. cbn [files clock_reads posted].
  rewrite lookup_insert_eq.
  rewrite bool_decide_eq_true_2 by eauto.
  cbn [files clock_reads posted]. rewrite delete_insert_eq.
  reflexivity.
Qed.

(** What [create_overlay] returns for an image field is the picture or the
    error label, never the answer as text. *)
Lemma create_overlay_image_inv field_data page_width page_height s overlay_page s' :
  startswith_http (field_answer field_data) = true ->
  create_overlay w field_data page_width page_height s = (Ok overlay_page, s') ->
  (exists img, overlay_page = image_overlay img field_data page_width page_height)
  \/ overlay_page = error_overlay field_data page_width page_height.
Proof.
  intros Hhttp Hrun.
  assert (Hlabel : forall s1,
            (label_result w field_data page_width page_height, s1)
            = (Ok overlay_page, s') ->
            overlay_page = error_overlay field_data page_width page_height).
  { intros s1 H. unfold label_result in H.
    destruct (label_drawable w field_data page_height); [|discriminate].
    injection H as <- _. reflexivity. }
  destruct (requests_get w (field_answer field_data)) as [img_data|] eqn:Hget.
  - destruct (Image_open w img_data) as [img|] eqn:Hopen.
    + destruct (Image_save_ok w img) eqn:Hsave.
      * destruct (drawImage_ok w img
                    (add (x (field_rect field_data)) (of_int 2))
                    (add (sub (sub page_height (y (field_rect field_data)))
                              (height (field_rect field_data))) (of_int 2))
                    (sub (width (field_rect field_data)) (of_int 4))
                    (sub (height (field_rect field_data)) (of_int 4))) eqn:Hdraw.
        -- rewrite (create_overlay_drawn_run _ _ _ _ _ _ Hhttp Hget Hopen Hsave Hdraw)
             in Hrun.
           injection Hrun as <- _. left. eauto.
        -- rewrite (create_overlay_draw_fails _ _ _ _ _ _ Hhttp Hget Hopen Hsave Hdraw)
             in Hrun.
           right. exact (Hlabel _ Hrun).
      * rewrite (create_overlay_save_fails _ _ _ _ _ _ Hhttp Hget Hopen Hsave) in Hrun.
        right. exact (Hlabel _ Hrun).
    + rewrite (create_overlay_decode_fails _ _ _ _ _ Hhttp Hget Hopen) in Hrun.
      right. exact (Hlabel _ Hrun).
  - rewrite (create_overlay_fetch_fails _ _ _ _ Hhttp Hget) in Hrun.
    right. exact (Hlabel _ Hrun).
Qed.

(** Whatever happens to the picture, an accepted label or text is enough
    for [create_overlay] to return. *)
Lemma create_overlay_accepted field_data page_width page_height s :
  draw_accepted w field_data page_height = true ->
  exists overlay_page s',
    create_overlay w field_data page_width page_height s = (Ok overlay_page, s').
Proof.
  unfold draw_accepted. intros Hacc.
  destruct (startswith_http (field_answer field_data)) eqn:Hhttp.
  - rewrite (is_image_field_http _ Hhttp) in Hacc.
    assert (Hlabel : label_result w field_data page_width page_height
                     = Ok (error_overlay field_data page_width page_height))
      by (unfold label_result; rewrite Hacc; reflexivity).
    destruct (requests_get w (field_answer field_data)) as [img_data|] eqn:Hget.
    + destruct (Image_open w img_data) as [img|] eqn:Hopen.
      * destruct (Image_save_ok w img) eqn:Hsave.
        -- destruct (drawImage_ok w img
                       (add (x (field_rect field_data)) (of_int 2))
                       (add (sub (sub page_height (y (field_rect field_data)))
                                 (height (field_rect field_data))) (of_int 2))
                       (sub (width (field_rect field_data)) (of_int 4))
                       (sub (height (field_rect field_data)) (of_int 4))) eqn:Hdraw.
           ++ rewrite (create_overlay_drawn_run _ _ _ _ _ _
                         Hhttp Hget Hopen Hsave Hdraw). eauto.
           ++ rewrite (create_overlay_draw_fails _ _ _ _ _ _
                         Hhttp Hget Hopen Hsave Hdraw), Hlabel. eauto.
        -- rewrite (create_overlay_save_fails _ _ _ _ _ _ Hhttp Hget Hopen Hsave),
             Hlabel. eauto.
      * rewrite (create_overlay_decode_fails _ _ _ _ _ Hhttp Hget Hopen), Hlabel.
        eauto.
    + rewrite (create_overlay_fetch_fails _ _ _ _ Hhttp Hget), Hlabel. eauto.
  - rewrite (is_image_field_text _ Hhttp) in Hacc.
    rewrite (create_overlay_text_run _ _ _ _ Hhttp), Hacc. eauto.
Qed.

End OverlayRuns.

(** ** Field classification *)

(** C2, as amended.  Whatever its declared kind, a field is treated as an
    image field exactly when its answer starts with the four characters
    [http].  Every other field is treated as a text field: its answer is
    drawn in Helvetica at the clamped size, or the canvas refuses that and
    the exception leaves [create_overlay]; nothing is fetched either way.
    For a field whose answer starts with [http], what [create_overlay]
    returns is the picture or the error label, never the answer as text. *)
Theorem image_field_iff_http_prefix (w : World) (field_data : FieldData) :
  (is_image_field field_data = true <->
   startswith_http (field_answer field_data) = true) /\
  (forall page_width page_height s,
     startswith_http (field_answer field_data) = false ->
     create_overlay w field_data page_width page_height s =
     (if text_drawable w field_data page_height
      then Ok (text_overlay field_data page_width page_height)
      else Raise CanvasError, s)) /\
  (forall page_width page_height s overlay_page s',
     startswith_http (field_answer field_data) = true ->
     create_overlay w field_data page_width page_height s = (Ok overlay_page, s') ->
     (exists img,
        overlay_page = image_overlay img field_data page_width page_height)
     \/ overlay_page = error_overlay field_data page_width page_height).
Proof.
  split; [|split].
  - unfold is_image_field, is_signature.
    destruct (startswith_http (field_answer field_data)).
    + rewrite orb_true_r. tauto.
    + rewrite andb_false_r. tauto.
  - intros page_width page_height s Hhttp.
    apply create_overlay_text_run. exact Hhttp.
  - intros page_width page_height s overlay_page s' Hhttp Hrun.
    exact (create_overlay_image_inv w _ _ _ _ _ _ Hhttp Hrun).
Qed.

Lemma image_field_iff_http_prefix_witness :
  is_image_field example_text_field = false /\
  create_overlay example_world example_text_field (of_int 612) f_792 empty_sys
  = (Ok {| pagesize := (of_int 612, f_792);
           ops := [ setFont "Helvetica" (of_int 12);
                    drawString (of_int 53) (of_int 678) "Jane Doe" ] |},
     empty_sys) /\
  create_overlay example_world example_huge_text_field (of_int 612) f_792 empty_sys
  = (Raise CanvasError, empty_sys).
Proof.
  destruct (image_field_iff_http_prefix example_world example_text_field)
    as (Hiff & Htext & _).
  destruct (image_field_iff_http_prefix example_world example_huge_text_field)
    as (_ & Hhuge & _).
  split; [|split].
  - apply not_true_is_false. intros Himage.
    apply (proj1 Hiff) in Himage. vm_compute in Himage. discriminate.
  - rewrite (Htext (of_int 612) f_792 empty_sys eq_refl). reflexivity.
  - rewrite (Hhuge (of_int 612) f_792 empty_sys eq_refl). reflexivity.
Defined.

(** C2 fails in both directions: an [ftp] URL has a scheme, yet the field is
    drawn as text although its kind is [signature], and [httpx] has no
    scheme, yet the field is drawn as an image. *)
Lemma image_field_not_iff_absolute_url :
  is_absolute_url (field_answer example_ftp_field) = true /\
  is_image_field example_ftp_field = false /\
  is_absolute_url (field_answer example_httpx_field) = false /\
  is_image_field example_httpx_field = true.
Proof. repeat split. Qed.

(** ** The temporary file of a signature image *)

(** C3 is broken by the code.  When the image is fetched, decoded and saved
    but drawing it fails, [create_overlay] returns the error label and the
    staged file is still in the working directory. *)
Theorem create_overlay_leaks_temp_file :
  let r := create_overlay example_world example_undrawable_signature
             (of_int 612) f_792 empty_sys in
  fst r = Ok {| pagesize := (of_int 612, f_792);
               ops := signature_error_label (of_int 50)
                        (convert_anvil_coordinates (of_int 100) f_792 (of_int 20))
                        (of_int 20) |} /\
  files empty_sys !! "temp_sig_1709967900.00.png" = None /\
  files (snd r) !! "temp_sig_1709967900.00.png" = Some (PILImage "PNG").
Proof. vm_compute. repeat split. Qed.

(** ** Upload *)

(** C9, as amended.  Given the storage service's response, [upload] raises
    the upload error exactly when the status is neither 200 nor 201, and on
    200 or 201 it returns the response's JSON body. *)
Theorem upload_fails_iff_not_200_201 (w : World) (self : SupabaseStorageClient)
    (bucket path : string) (file_data : list Page) (s : Sys) (response : Response) :
  requests_post w
    (url self +:+ "/storage/v1/object/" +:+ bucket +:+ "/" +:+ path)
    (upload_headers self) file_data
    = Some response ->
  (fst (upload w self bucket path file_data s) = Raise (UploadFailed (text response))
   <-> status_code response <> 200 /\ status_code response <> 201) /\
  (forall body, json response = Some body ->
     status_code response = 200 \/ status_code response = 201 ->
     fst (upload w self bucket path file_data s) = Ok body).
Proof.
  intros Hpost. unfold upload. rewrite Hpost.
  destruct (decide (status_code response ∈ [200; 201])) as [Hin|Hnin].
  - rewrite (bool_decide_eq_true_2 _ Hin). simpl.
    assert (H2 : status_code response = 200 \/ status_code response = 201).
    { rewrite !elem_of_cons, elem_of_nil in Hin. tauto. }
    split.
    + split; [|intros [? ?]; lia].
      destruct (json response); discriminate.
    + intros body Hb _. rewrite Hb. reflexivity.
  - rewrite (bool_decide_eq_false_2 _ Hnin). simpl.
    assert (H2 : status_code response <> 200 /\ status_code response <> 201).
    { rewrite !elem_of_cons, elem_of_nil in Hnin. tauto. }
    split; [tauto|]. intros body _ [?|?]; lia.
Qed.

Lemma upload_fails_iff_not_200_201_witness :
  fst (upload example_world example_client "finishpdf" "form.pdf"
         example_pages empty_sys) = Ok "{}".
Proof.
  apply (proj2 (upload_fails_iff_not_200_201 example_world example_client
                  "finishpdf" "form.pdf" example_pages empty_sys
                  (example_response 200) eq_refl));
    [reflexivity | left; reflexivity].
Defined.

(** C9 fails for 204: the status is a 2xx one and [upload] raises. *)
Lemma upload_fails_on_204 :
  is_2xx (status_code (example_response 204)) = true /\
  fst (upload example_world_204 example_client "finishpdf" "form.pdf"
         example_pages empty_sys)
  = Raise (UploadFailed "body").
Proof. vm_compute. repeat split. Qed.

(** ** Grouping the fields by page *)

Section Grouping.

Implicit Types (m : gmap Z (list FieldData)) (k : Z).

(** One iteration of the grouping loop. *)
Lemma group_step_lookup m field k :
  <[field_page_num field :=
      ((if bool_decide (field_page_num field ∈ dom m) then m
        else <[field_page_num field := []]> m) !!! field_page_num field)
      ++ [field]]>
    (if bool_decide (field_page_num field ∈ dom m) then m
     else <[field_page_num field := []]> m) !! k
  = if decide (field_page_num field = k)
    then Some (default [] (m !! k) ++ [field])
    else m !! k.
Proof.
  set (page_num := field_page_num field).
  rewrite lookup_insert.
  destruct (decide (page_num = k)) as [<-|Hne].
  - f_equal. f_equal. case_bool_decide as Hdom.
    + apply elem_of_dom in Hdom as [l Hl].
      rewrite (lookup_total_correct _ _ _ Hl), Hl. reflexivity.
    + apply not_elem_of_dom in Hdom.
      rewrite lookup_total_insert_eq, Hdom. reflexivity.
  - case_bool_decide; [reflexivity|].
    rewrite lookup_insert_ne by exact Hne. reflexivity.
Qed.

Lemma group_fields_from fields_data : forall m k,
  foldl (fun fields_by_page field =>
           let page_num := field_page_num field in
           let fields_by_page :=
             if bool_decide (page_num ∈ dom fields_by_page) then fields_by_page
             else <[page_num := []]> fields_by_page in
           <[page_num := (fields_by_page !!! page_num) ++ [field]]> fields_by_page)
        m fields_data !! k
  = match m !! k, bucket_of k fields_data with
    | None, [] => None
    | o, l => Some (default [] o ++ l)
    end.
Proof.
  induction fields_data as [|field rest IH]; intros m k.
  - simpl. destruct (m !! k); [rewrite app_nil_r|]; reflexivity.
  - cbn [foldl]. rewrite IH. cbv beta zeta.
    rewrite (group_step_lookup m field k).
    unfold bucket_of. rewrite filter_cons.
    destruct (decide (field_page_num field = k)) as [Heq|Hne].
    + destruct (m !! k); cbn [default from_option id];
        rewrite <- ?app_assoc; reflexivity.
    + reflexivity.
Qed.

Lemma group_fields_lookup fields_data k :
  group_fields fields_data !! k
  = match bucket_of k fields_data with [] => None | l => Some l end.
Proof.
  unfold group_fields. rewrite group_fields_from, lookup_empty. reflexivity.
Qed.

Lemma group_fields_lookup_total fields_data k :
  group_fields fields_data !!! k = bucket_of k fields_data.
Proof.
  rewrite lookup_total_alt, group_fields_lookup.
  destruct (bucket_of k fields_data); reflexivity.
Qed.

Lemma group_fields_not_in_dom fields_data k :
  k ∉ dom (group_fields fields_data) -> bucket_of k fields_data = [].
Proof.
  intros H. apply not_elem_of_dom in H. rewrite group_fields_lookup in H.
  destruct (bucket_of k fields_data); [reflexivity|discriminate].
Qed.

Lemma bucket_of_remove fs1 field fs2 k :
  field_page_num field <> k ->
  bucket_of k (fs1 ++ field :: fs2) = bucket_of k (fs1 ++ fs2).
Proof.
  intros Hne. unfold bucket_of. rewrite !filter_app, filter_cons.
  destruct (decide (field_page_num field = k)); [contradiction|reflexivity].
Qed.

Lemma bucket_of_nil fields_data k :
  (forall field, field ∈ fields_data -> field_page_num field <> k) ->
  bucket_of k fields_data = [].
Proof.
  intros H. unfold bucket_of.
  induction fields_data as [|field rest IH]; [reflexivity|].
  rewrite filter_cons.
  destruct (decide (field_page_num field = k)) as [Heq|_].
  - exfalso. apply (H field); [left|exact Heq].
  - apply IH. intros f Hf. apply H. right. exact Hf.
Qed.

End Grouping.

(** ** The rendering loops *)

Section Loops.

Variable w : World.

Lemma for_each_ext {A B} (body1 body2 : B -> A -> M B) (l : list A) :
  (forall a, a ∈ l -> forall acc s, body1 acc a s = body2 acc a s) ->
  forall acc s, for_each body1 l acc s = for_each body2 l acc s.
Proof.
  induction l as [|a l IH]; intros Hext acc s; [reflexivity|].
  cbn [for_each]. unfold bind. rewrite (Hext a) by left.
  destruct (body2 acc a s) as [[acc'|e] s']; [|reflexivity].
  apply IH. intros a' Ha'. apply Hext. right. exact Ha'.
Qed.

(** The loop of line 209: when it runs to the end it has merged one
    overlay per field, in order. *)
Lemma merge_loop_inv page_width page_height fields_data :
  forall page s page' s',
    for_each (fun page field =>
                overlay_page <- create_overlay w field page_width page_height ;;
                ret (merge_page page overlay_page))
             fields_data page s
    = (Ok page', s') ->
    exists overlays,
      page' = merge_pages page overlays /\
      Forall2 (rendered w page_width page_height) fields_data overlays.
Proof.
  induction fields_data as [|field rest IH]; intros page s page' s' Hrun.
  - injection Hrun as <- _. exists []. split; [reflexivity|constructor].
  - cbn [for_each] in Hrun.
    destruct (create_overlay w field page_width page_height s)
      as [[overlay_page|e] s1] eqn:Hov.
    + rewrite (bind_Ok _ _ s (merge_page page overlay_page) s1) in Hrun
        by (rewrite (bind_Ok _ _ _ _ _ Hov); reflexivity).
      destruct (IH _ _ _ _ Hrun) as (overlays & -> & Hall).
      exists (overlay_page :: overlays). split; [reflexivity|].
      constructor; [|exact Hall]. exists s, s1. exact Hov.
    + rewrite (bind_Raise _ _ s e s1) in Hrun
        by (rewrite (bind_Raise _ _ _ _ _ Hov); reflexivity).
      discriminate.
Qed.

(** It runs to the end when the canvas accepts every field. *)
Lemma merge_loop_returns page_width page_height fields_data :
  (forall field, field ∈ fields_data ->
     draw_accepted w field page_height = true) ->
  forall page s,
    exists page' s',
      for_each (fun page field =>
                  overlay_page <- create_overlay w field page_width page_height ;;
                  ret (merge_page page overlay_page))
               fields_data page s
      = (Ok page', s').
Proof.
  induction fields_data as [|field rest IH]; intros Hacc page s.
  - exists page, s. reflexivity.
  - destruct (create_overlay_accepted w field page_width page_height s)
      as (overlay_page & s1 & Hov); [apply Hacc; left|].
    destruct (IH (fun f Hf => Hacc f (list_elem_of_further _ _ _ Hf))
                 (merge_page page overlay_page) s1) as (page' & s' & Hrest).
    exists page', s'. cbn [for_each].
    rewrite (bind_Ok _ _ s (merge_page page overlay_page) s1);
      [exact Hrest|].
    rewrite (bind_Ok _ _ _ _ _ Hov). reflexivity.
Qed.

(** [process_page] consults the dictionary only for the fields that name
    the page. *)
Lemma process_page_bucket pages fields_data pdf_writer page_num s :
  process_page w pages (group_fields fields_data) pdf_writer page_num s
  = (page <- match pages !! page_num with
             | Some page => ret page
             | None => raise IndexError
             end ;;
     page' <- for_each (fun page' field =>
                          overlay_page <- create_overlay w field
                                            (mediabox_width page)
                                            (mediabox_height page) ;;
                          ret (merge_page page' overlay_page))
                       (bucket_of (Z.of_nat page_num) fields_data) page ;;
     ret (pdf_writer ++ [page'])) s.
Proof.
  unfold process_page.
  destruct (pages !! page_num) as [page|]; [|reflexivity].
  rewrite !(bind_Ok (ret page) _ s page s eq_refl).
  case_bool_decide as Hdom.
  - rewrite group_fields_lookup_total. reflexivity.
  - rewrite (group_fields_not_in_dom _ _ Hdom). reflexivity.
Qed.

Lemma merge_pages_snoc page overlays :
  content (merge_pages page overlays) = content page /\
  mediabox_width (merge_pages page overlays) = mediabox_width page /\
  mediabox_height (merge_pages page overlays) = mediabox_height page /\
  merged (merge_pages page overlays) = merged page ++ overlays.
Proof.
  revert page. induction overlays as [|ov overlays IH]; intros page.
  - cbn. rewrite app_nil_r. repeat split.
  - unfold merge_pages. cbn [foldl]. fold (merge_pages (merge_page page ov) overlays).
    destruct (IH (merge_page page ov)) as (Hc & Hw & Hh & Hm).
    rewrite Hc, Hw, Hh, Hm. cbn. rewrite <- app_assoc. repeat split.
Qed.

Lemma process_page_inv pages fields_data pdf_writer page_num s pdf_writer' s' :
  process_page w pages (group_fields fields_data) pdf_writer page_num s
  = (Ok pdf_writer', s') ->
  exists page overlays,
    pages !! page_num = Some page /\
    pdf_writer' = pdf_writer ++ [merge_pages page overlays] /\
    Forall2 (rendered w (mediabox_width page) (mediabox_height page))
            (bucket_of (Z.of_nat page_num) fields_data) overlays.
Proof.
  rewrite process_page_bucket. intros Hrun.
  destruct (pages !! page_num) as [page|]; [|discriminate].
  rewrite (bind_Ok (ret page) _ s page s eq_refl) in Hrun.
  match type of Hrun with
  | bind ?c _ s = _ => destruct (c s) as [[page'|e] s1] eqn:Hloop
  end.
  - rewrite (bind_Ok _ _ _ _ _ Hloop) in Hrun. injection Hrun as <- _.
    destruct (merge_loop_inv _ _ _ _ _ _ _ Hloop) as (overlays & -> & Hall).
    exists page, overlays. repeat split. exact Hall.
  - rewrite (bind_Raise _ _ _ _ _ Hloop) in Hrun. discriminate.
Qed.

Lemma process_page_returns pages fields_data pdf_writer page_num s page :
  pages !! page_num = Some page ->
  (forall field, field ∈ bucket_of (Z.of_nat page_num) fields_data ->
     draw_accepted w field (mediabox_height page) = true) ->
  exists pdf_writer' s',
    process_page w pages (group_fields fields_data) pdf_writer page_num s
    = (Ok pdf_writer', s').
Proof.
  intros Hpage Hacc. rewrite process_page_bucket, Hpage.
  rewrite (bind_Ok (ret page) _ s page s eq_refl).
  destruct (merge_loop_returns (mediabox_width page) (mediabox_height page)
              _ Hacc page s) as (page' & s' & Hloop).
  rewrite (bind_Ok _ _ _ _ _ Hloop). eexists _, _. reflexivity.
Qed.

(** The loop of line 198, started at page [i] with [n] pages to go. *)
Lemma page_loop_inv pages fields_data : forall (n i : nat) pdf_writer s res s',
  for_each (process_page w pages (group_fields fields_data))
           (seq i n) pdf_writer s
  = (Ok res, s') ->
  exists out,
    res = pdf_writer ++ out /\
    length out = n /\
    forall (j : nat) page,
      pages !! (i + j)%nat = Some page -> (j < n)%nat ->
      exists overlays,
        out !! j = Some (merge_pages page overlays) /\
        Forall2 (rendered w (mediabox_width page) (mediabox_height page))
                (bucket_of (Z.of_nat (i + j)) fields_data) overlays.
Proof.
  induction n as [|n IH]; intros i pdf_writer s res s' Hrun.
  - injection Hrun as <- _. exists []. rewrite app_nil_r.
    repeat split. intros j page _ Hj. lia.
  - cbn [seq for_each] in Hrun.
    destruct (process_page w pages (group_fields fields_data) pdf_writer i s)
      as [[pdf_writer1|e] s1] eqn:Hstep.
    + rewrite (bind_Ok _ _ _ _ _ Hstep) in Hrun.
      apply process_page_inv in Hstep as (page & overlays & Hpage & -> & Hall).
      destruct (IH _ _ _ _ _ Hrun) as (out & -> & Hout & Hpages).
      exists (merge_pages page overlays :: out). split; [|split].
      * rewrite <- app_assoc. reflexivity.
      * cbn [length]. lia.
      * intros j page' Hpage' Hj. destruct j as [|j].
        -- rewrite Nat.add_0_r in *. rewrite Hpage in Hpage'.
           injection Hpage' as <-. exists overlays.
           split; [reflexivity|exact Hall].
        -- replace (i + S j)%nat with (S i + j)%nat in * by lia.
           apply Hpages; [exact Hpage'|lia].
    + rewrite (bind_Raise _ _ _ _ _ Hstep) in Hrun. discriminate.
Qed.

Lemma page_loop_returns pages fields_data :
  draws_accepted w fields_data pages ->
  forall (n i : nat) pdf_writer s,
    (i + n <= length pages)%nat ->
    exists res s',
      for_each (process_page w pages (group_fields fields_data))
               (seq i n) pdf_writer s
      = (Ok res, s').
Proof.
  intros Hacc. induction n as [|n IH]; intros i pdf_writer s Hlen.
  - exists pdf_writer, s. reflexivity.
  - destruct (lookup_lt_is_Some_2 pages i) as [page Hpage]; [lia|].
    destruct (process_page_returns pages fields_data pdf_writer i s page Hpage)
      as (pdf_writer1 & s1 & Hstep).
    { intros field Hin. apply list_elem_of_filter in Hin as [Hnum Hin].
      exact (Hacc i page field Hpage Hin Hnum). }
    destruct (IH (S i) pdf_writer1 s1) as (res & s' & Hrest); [lia|].
    exists res, s'. cbn [seq for_each].
    rewrite (bind_Ok _ _ _ _ _ Hstep). exact Hrest.
Qed.

(** What [fill_pdf] has returned, when it returns: as many pages as the
    source has, each with one overlay per field that names it, in input
    order. *)
Lemma fill_pdf_pages_inv pdf_url fields_data s pdf_bytes pages out s' :
  requests_get w pdf_url = Some pdf_bytes ->
  PdfReader w pdf_bytes = Some pages ->
  fill_pdf w pdf_url fields_data s = (Ok out, s') ->
  length out = length pages /\
  forall (i : nat) page,
    pages !! i = Some page ->
    exists overlays,
      out !! i = Some (merge_pages page overlays) /\
      Forall2 (rendered w (mediabox_width page) (mediabox_height page))
              (bucket_of (Z.of_nat i) fields_data) overlays.
Proof.
  intros Hget Hread Hrun. unfold fill_pdf, download_file in Hrun.
  rewrite Hget in Hrun.
  rewrite (bind_Ok (ret pdf_bytes) _ s pdf_bytes s eq_refl), Hread in Hrun.
  rewrite (bind_Ok (ret pages) _ s pages s eq_refl) in Hrun.
  destruct (page_loop_inv _ _ _ _ _ _ _ _ Hrun) as (res & -> & Hlen & Hpages).
  split; [exact Hlen|].
  intros i page Hpage. apply (Hpages i page Hpage).
  apply lookup_lt_Some in Hpage. exact Hpage.
Qed.

(** It returns once the source is fetched and read and the canvas accepts
    every instruction on the page it names. *)
Lemma fill_pdf_returns pdf_url fields_data s pdf_bytes pages :
  requests_get w pdf_url = Some pdf_bytes ->
  PdfReader w pdf_bytes = Some pages ->
  draws_accepted w fields_data pages ->
  exists out s', fill_pdf w pdf_url fields_data s = (Ok out, s').
Proof.
  intros Hget Hread Hacc.
  destruct (page_loop_returns pages fields_data Hacc (length pages) 0 [] s)
    as (out & s' & Hloop); [lia|].
  exists out, s'. unfold fill_pdf, download_file. rewrite Hget.
  rewrite (bind_Ok (ret pdf_bytes) _ s pdf_bytes s eq_refl), Hread.
  rewrite (bind_Ok (ret pages) _ s pages s eq_refl). exact Hloop.
Qed.

End Loops.

(** ** Filling a document *)

(** C4, as amended.  Whenever [fill_pdf] returns a document, that document
    has as many pages as the source; and it does return one once the
    source has been fetched and read and the canvas accepts every
    instruction on the page it names. *)
Theorem fill_pdf_page_count (w : World) (pdf_url : string)
    (fields_data : list FieldData) (s : Sys) (pdf_bytes : bytes) (pages : list Page) :
  requests_get w pdf_url = Some pdf_bytes ->
  PdfReader w pdf_bytes = Some pages ->
  (forall out s',
     fill_pdf w pdf_url fields_data s = (Ok out, s') ->
     length out = length pages) /\
  (draws_accepted w fields_data pages ->
   exists out s',
     fill_pdf w pdf_url fields_data s = (Ok out, s') /\
     length out = length pages).
Proof.
  intros Hget Hread. split.
  - intros out s' Hrun.
    exact (proj1 (fill_pdf_pages_inv w _ _ _ _ _ _ _ Hget Hread Hrun)).
  - intros Hacc.
    destruct (fill_pdf_returns w pdf_url fields_data s pdf_bytes pages
                Hget Hread Hacc) as (out & s' & Hrun).
    exists out, s'. split; [exact Hrun|].
    exact (proj1 (fill_pdf_pages_inv w _ _ _ _ _ _ _ Hget Hread Hrun)).
Qed.

(** The instructions of a list are accepted on the example document when
    each is, on each of its three pages: every page has the same media box. *)
Lemma example_draws_accepted (w : World) (fields_data : list FieldData) :
  forallb (fun field => draw_accepted w field f_792) fields_data = true ->
  draws_accepted w fields_data example_pages.
Proof.
  intros Hall i page field Hpage Hin _.
  assert (Hh : mediabox_height page = f_792).
  { destruct i as [|[|[|i]]]; cbn in Hpage; try discriminate;
      injection Hpage as <-; reflexivity. }
  rewrite Hh. rewrite forallb_forall in Hall. apply Hall.
  apply list_elem_of_In. exact Hin.
Qed.

Lemma fill_pdf_page_count_witness :
  exists out s',
    fill_pdf example_world "http://example.com/doc.pdf"
      [example_text_field; example_undrawable_signature; example_stray_field]
      empty_sys = (Ok out, s') /\
    length out = 3%nat.
Proof.
  apply (fill_pdf_page_count example_world "http://example.com/doc.pdf"
           [example_text_field; example_undrawable_signature; example_stray_field]
           empty_sys "%PDF" example_pages); [reflexivity|reflexivity|].
  apply example_draws_accepted. reflexivity.
Defined.

(** C4 fails as stated: a text instruction whose rectangle is made of
    finite, non-negative numbers, with y and height the largest float, has
    its lower edge at minus infinity; the canvas refuses the position, the
    exception leaves [fill_pdf] and no document is produced. *)
Lemma fill_pdf_raises_on_huge_field :
  is_finite (y example_huge_rect) = true /\
  is_finite (height example_huge_rect) = true /\
  leb (of_int 0) (width example_huge_rect) = true /\
  leb (of_int 0) (height example_huge_rect) = true /\
  convert_anvil_coordinates (y example_huge_rect) f_792 (height example_huge_rect)
  = S754_infinity true /\
  fill_pdf example_world "http://example.com/doc.pdf"
    [example_huge_text_field] empty_sys
  = (Raise CanvasError, empty_sys).
Proof. vm_compute. repeat split. Qed.

(** C5.  A page that no instruction names comes out as it went in: in every
    document [fill_pdf] returns it has the same media box, the same
    content and nothing merged onto it; and [fill_pdf] does return one once
    the source has been fetched and read and the canvas accepts every
    instruction on the page it names. *)
Theorem fill_pdf_untouched_page (w : World) (pdf_url : string)
    (fields_data : list FieldData) (s : Sys) (pdf_bytes : bytes)
    (pages : list Page) (i : nat) (page : Page) :
  requests_get w pdf_url = Some pdf_bytes ->
  PdfReader w pdf_bytes = Some pages ->
  pages !! i = Some page ->
  (forall field, field ∈ fields_data -> field_page_num field <> Z.of_nat i) ->
  (forall out s',
     fill_pdf w pdf_url fields_data s = (Ok out, s') ->
     out !! i = Some page) /\
  (draws_accepted w fields_data pages ->
   exists out s',
     fill_pdf w pdf_url fields_data s = (Ok out, s') /\
     out !! i = Some page).
Proof.
  intros Hget Hread Hpage Hnone.
  assert (Hinv : forall out s',
            fill_pdf w pdf_url fields_data s = (Ok out, s') ->
            out !! i = Some page).
  { intros out s' Hrun.
    destruct (fill_pdf_pages_inv w _ _ _ _ _ _ _ Hget Hread Hrun) as [_ Hpages].
    destruct (Hpages i page Hpage) as (overlays & Hout & Hall).
    rewrite (bucket_of_nil _ _ Hnone) in Hall.
    apply Forall2_nil_inv_l in Hall. subst overlays. exact Hout. }
  split; [exact Hinv|].
  intros Hacc.
  destruct (fill_pdf_returns w pdf_url fields_data s pdf_bytes pages
              Hget Hread Hacc) as (out & s' & Hrun).
  exists out, s'. split; [exact Hrun|exact (Hinv _ _ Hrun)].
Qed.

Lemma fill_pdf_untouched_page_witness :
  exists out s',
    fill_pdf example_world "http://example.com/doc.pdf"
      [example_text_field] empty_sys = (Ok out, s') /\
    out !! 1%nat = Some (example_page "page 1").
Proof.
  apply (fill_pdf_untouched_page example_world "http://example.com/doc.pdf"
           [example_text_field] empty_sys "%PDF" example_pages 1
           (example_page "page 1")); try reflexivity.
  - intros field Hfield. apply list_elem_of_singleton in Hfield. subst field.
    vm_compute. discriminate.
  - apply example_draws_accepted. reflexivity.
Defined.

(** C8.  An instruction whose page number is negative or not less than the
    page count changes nothing: the result, and the state left behind, are
    those of the run without it. *)
Theorem fill_pdf_drops_out_of_range (w : World) (pdf_url : string)
    (fs1 : list FieldData) (field : FieldData) (fs2 : list FieldData)
    (s : Sys) (pdf_bytes : bytes) (pages : list Page) :
  requests_get w pdf_url = Some pdf_bytes ->
  PdfReader w pdf_bytes = Some pages ->
  field_page_num field < 0 \/ Z.of_nat (length pages) <= field_page_num field ->
  fill_pdf w pdf_url (fs1 ++ field :: fs2) s = fill_pdf w pdf_url (fs1 ++ fs2) s.
Proof.
  intros Hget Hread Hrange.
  unfold fill_pdf, download_file. rewrite Hget.
  rewrite !(bind_Ok (ret pdf_bytes) _ s pdf_bytes s eq_refl), Hread.
  rewrite !(bind_Ok (ret pages) _ s pages s eq_refl).
  apply for_each_ext. intros page_num Hin pdf_writer s0.
  apply elem_of_seq in Hin.
  rewrite !process_page_bucket, bucket_of_remove by lia. reflexivity.
Qed.

Lemma fill_pdf_drops_out_of_range_witness :
  fill_pdf example_world "http://example.com/doc.pdf"
    ([example_text_field] ++ example_stray_field :: [example_undrawable_signature])
    empty_sys
  = fill_pdf example_world "http://example.com/doc.pdf"
      ([example_text_field] ++ [example_undrawable_signature]) empty_sys.
Proof.
  apply (fill_pdf_drops_out_of_range example_world "http://example.com/doc.pdf"
           [example_text_field] example_stray_field [example_undrawable_signature]
           empty_sys "%PDF" example_pages); [reflexivity|reflexivity|].
  right. vm_compute. discriminate.
Defined.

(** ** The endpoint *)

Section Endpoint.

Variable w : World.

Lemma upload_inv self bucket path file_data s body s' :
  upload w self bucket path file_data s = (Ok body, s') ->
  posted s' = posted s ++
    [(url self +:+ "/storage/v1/object/" +:+ bucket +:+ "/" +:+ path, file_data)].
Proof.
  unfold upload.
  destruct (requests_post w _ _ file_data) as [response|]; [|discriminate].
  destruct (negb _); [discriminate|].
  destruct (json response); [|discriminate].
  intros H. injection H as _ <-. reflexivity.
Qed.


Lemma upload_to_supabase_inv self pdf_data filename bucket s public_url s' :
  upload_to_supabase w self pdf_data filename bucket s = (Ok public_url, s') ->
  public_url = get_public_url (storage self) bucket
                 (unique_filename_at w (clock_reads s) filename) /\
  posted s' = posted s ++
    [(url (storage self) +:+ "/storage/v1/object/" +:+ bucket +:+ "/" +:+
        unique_filename_at w (clock_reads s) filename, pdf_data)].
Proof.
  unfold upload_to_supabase.
  rewrite (bind_Ok (now w) _ s _ _ eq_refl).
  match goal with |- bind ?c _ _ = _ -> _ =>
    destruct (c {| files := files s; clock_reads := S (clock_reads s);
                   posted := posted s |}) as [[body|e] s1] eqn:Hup end.
  - rewrite (bind_Ok _ _ _ _ _ Hup). intros H. injection H as <- <-.
    apply upload_inv in Hup. split; [reflexivity|exact Hup].
  - rewrite (bind_Raise _ _ _ _ _ Hup). discriminate.
Qed.

(** A request that is answered with 200 went through [fill_pdf] and
    [upload_to_supabase], and the body is built from their results. *)
Lemma endpoint_inv SUPABASE_URL SUPABASE_KEY request s body s' :
  fill_pdf_endpoint w SUPABASE_URL SUPABASE_KEY request s = (HTTP200 body, s') ->
  exists filled_pdf s1 public_url,
    fill_pdf w (pdf_url request) (fields request) s = (Ok filled_pdf, s1) /\
    upload_to_supabase w (PDFFieldFiller_init SUPABASE_URL SUPABASE_KEY)
      filled_pdf (filename request) (format_optional (bucket request)) s1
      = (Ok public_url, s') /\
    body = {| success := true; message := "PDF 填寫成功";
              resp_pdf_url := Some public_url;
              resp_filename := Some (filename request) |}.
Proof.
  unfold fill_pdf_endpoint.
  destruct (bool_decide (SUPABASE_URL = "") || bool_decide (SUPABASE_KEY = ""));
    [discriminate|].
  rewrite (bind_Ok (ret tt) _ s tt s eq_refl).
  destruct (fill_pdf w (pdf_url request) (fields request) s)
    as [[filled_pdf|e] s1] eqn:Hfill;
    [rewrite (bind_Ok _ _ _ _ _ Hfill)
    |rewrite (bind_Raise _ _ _ _ _ Hfill); discriminate].
  destruct (upload_to_supabase w (PDFFieldFiller_init SUPABASE_URL SUPABASE_KEY)
              filled_pdf (filename request) (format_optional (bucket request)) s1)
    as [[public_url|e] s2] eqn:Hup;
    [rewrite (bind_Ok _ _ _ _ _ Hup)
    |rewrite (bind_Raise _ _ _ _ _ Hup); discriminate].
  intros H. injection H as <- <-.
  exists filled_pdf, s1, public_url.
  split; [reflexivity|]. split; [exact Hup|reflexivity].
Qed.


End Endpoint.

(** ** Signature failures *)




(** ** The stored name and the reported name *)

Lemma length_append (s1 s2 : string) :
  String.length (s1 +:+ s2) = (String.length s1 + String.length s2)%nat.
Proof. induction s1 as [|c s1 IH]; simpl; [reflexivity|]. f_equal. exact IH. Qed.

Lemma is_digit_digit (n : nat) : is_digit (digit n) = true.
Proof.
  unfold is_digit, digit.
  assert (Hlt : (n mod 10 < 10)%nat) by (apply Nat.mod_upper_bound; lia).
  rewrite nat_ascii_embedding by lia.
  apply andb_true_intro. split; apply Nat.leb_le; lia.
Qed.

Lemma strftime_shape (t : datetime) : is_YYYYMMDD_HHMMSS (strftime t) = true.
Proof.
  unfold is_YYYYMMDD_HHMMSS, strftime, pad4, pad2, all_digits.
  generalize is_digit_digit. generalize digit. generalize is_digit.
  intros is_digit' digit' Hdigit.
  cbv -[Nat.div Nat.modulo].
  rewrite !Hdigit. reflexivity.
Qed.

(** C10.  When a request is answered with 200, the [filename] of the
    response is the caller's, unchanged.  The object was stored under
    [filled_], the time of the upload as [YYYYMMDD_HHMMSS], an underscore
    and the caller's filename; [pdf_url] points at that object, and that
    name differs from the [filename] reported. *)
Theorem response_reports_caller_filename (w : World)
    (SUPABASE_URL SUPABASE_KEY : string) (request : FillPDFRequest)
    (s : Sys) (body : FillPDFResponse) (s' : Sys) :
  fill_pdf_endpoint w SUPABASE_URL SUPABASE_KEY request s = (HTTP200 body, s') ->
  exists (n : nat) (filled_pdf : list Page),
    let stored := unique_filename_at w n (filename request) in
    let base := rstrip_slash SUPABASE_URL in
    let bkt := format_optional (bucket request) in
    resp_filename body = Some (filename request) /\
    stored = "filled_" +:+ strftime (datetime_now w n) +:+ "_" +:+ filename request /\
    is_YYYYMMDD_HHMMSS (strftime (datetime_now w n)) = true /\
    last (posted s') =
      Some (base +:+ "/storage/v1/object/" +:+ bkt +:+ "/" +:+ stored, filled_pdf) /\
    resp_pdf_url body =
      Some (base +:+ "/storage/v1/object/public/" +:+ bkt +:+ "/" +:+ stored) /\
    resp_filename body <> Some stored.
Proof.
  intros Hend.
  destruct (endpoint_inv w _ _ _ _ _ _ Hend)
    as (filled_pdf & s1 & public_url & Hfill & Hup & ->).
  apply upload_to_supabase_inv in Hup as [-> Hposted].
  exists (clock_reads s1), filled_pdf. cbn zeta.
  split; [reflexivity|]. split; [reflexivity|].
  split; [apply strftime_shape|].
  split; [rewrite Hposted, last_snoc; reflexivity|].
  split; [reflexivity|].
  cbn [resp_filename]. intros Heq. injection Heq as Heq.
  apply (f_equal String.length) in Heq. unfold unique_filename_at in Heq.
  rewrite !length_append in Heq. cbn [String.length] in Heq. lia.
Qed.

Lemma response_reports_caller_filename_witness :
  exists body s',
    fill_pdf_endpoint example_world "https://example.supabase.co/" "secret"
      (example_request [example_text_field]) empty_sys = (HTTP200 body, s') /\
    resp_filename body = Some "form.pdf" /\
    resp_pdf_url body =
      Some "https://example.supabase.co/storage/v1/object/public/finishpdf/filled_20240309_070500_form.pdf".
Proof.
  eexists _, _. split; [vm_compute; reflexivity|].
  destruct (response_reports_caller_filename example_world
              "https://example.supabase.co/" "secret"
              (example_request [example_text_field]) empty_sys _ _ eq_refl)
    as (n & filled_pdf & Hname & _).
  split; reflexivity.
Defined.

(** * Further properties of the code *)

(** ** The storage URL *)

Lemma append_slash_nonempty (p : string) : p +:+ "/" <> "".
Proof. destruct p; discriminate. Qed.

Lemma rstrip_slash_not_trailing (s p : string) : rstrip_slash s <> p +:+ "/".
Proof.
  revert p. induction s as [|c rest IH]; intros p; simpl.
  - intros H. symmetry in H. exact (append_slash_nonempty p H).
  - destruct (rstrip_slash rest) as [|c' r] eqn:Hr.
    + destruct (Ascii.eqb_spec c "/"%char) as [->|Hc].
      * intros H. symmetry in H. exact (append_slash_nonempty p H).
      * destruct p as [|c0 p]; simpl; intros H.
        -- injection H as H1. contradiction.
        -- injection H as H1 H2. symmetry in H2.
           exact (append_slash_nonempty p H2).
    + destruct p as [|c0 p]; simpl; intros H.
      * discriminate.
      * injection H as H1 H2. exact (IH p H2).
Qed.

Lemma rstrip_slash_decompose (s : string) :
  exists k, s = rstrip_slash s +:+ slashes k.
Proof.
  induction s as [|c rest IH]; simpl.
  - exists O. reflexivity.
  - destruct IH as [k IH]. destruct (rstrip_slash rest) as [|c' r] eqn:Hr.
    + destruct (Ascii.eqb_spec c "/"%char) as [->|Hc].
      * exists (S k). rewrite IH at 1. reflexivity.
      * exists k. rewrite IH at 1. reflexivity.
    + exists k. rewrite IH at 1. reflexivity.
Qed.

Lemma rstrip_slash_append_slash (s : string) :
  rstrip_slash (s +:+ "/") = rstrip_slash s.
Proof.
  induction s as [|c rest IH]; simpl; [reflexivity|].
  rewrite IH. reflexivity.
Qed.

(** X1.  The URL the storage client keeps is the configured one without
    its trailing slashes: it does not end in a slash, the configured URL is
    it followed by slashes only, and one more trailing slash in the
    configuration gives the same client. *)
Theorem storage_url_has_no_trailing_slash (supabase_url supabase_key : string) :
  (forall p, url (SupabaseStorageClient_init supabase_url supabase_key)
             <> p +:+ "/") /\
  (exists k, supabase_url
             = url (SupabaseStorageClient_init supabase_url supabase_key)
               +:+ slashes k) /\
  SupabaseStorageClient_init (supabase_url +:+ "/") supabase_key
  = SupabaseStorageClient_init supabase_url supabase_key.
Proof.
  unfold SupabaseStorageClient_init. cbn [url]. split; [|split].
  - intros p. apply rstrip_slash_not_trailing.
  - apply rstrip_slash_decompose.
  - rewrite rstrip_slash_append_slash. reflexivity.
Qed.

(** ** The stored name *)

Lemma digit_inj (a b : nat) : digit a = digit b -> (a mod 10 = b mod 10)%nat.
Proof.
  unfold digit. intros H.
  assert (Ha : (a mod 10 < 10)%nat) by (apply Nat.mod_upper_bound; lia).
  assert (Hb : (b mod 10 < 10)%nat) by (apply Nat.mod_upper_bound; lia).
  apply (f_equal nat_of_ascii) in H.
  rewrite !nat_ascii_embedding in H by lia. lia.
Qed.

Lemma strftime_chars (t : datetime) :
  strftime t =
  String (digit (year t / 1000)) (String (digit (year t / 100))
  (String (digit (year t / 10)) (String (digit (year t))
  (String (digit (month t / 10)) (String (digit (month t))
  (String (digit (day t / 10)) (String (digit (day t))
  (String "_"%char
  (String (digit (hour t / 10)) (String (digit (hour t))
  (String (digit (minute t / 10)) (String (digit (minute t))
  (String (digit (second t / 10)) (String (digit (second t))
  EmptyString)))))))))))))).
Proof. reflexivity. Qed.

Lemma strftime_append_inj (t1 t2 : datetime) (r1 r2 : string) :
  datetime_ok t1 -> datetime_ok t2 ->
  strftime t1 +:+ r1 = strftime t2 +:+ r2 -> t1 = t2 /\ r1 = r2.
Proof.
  intros Ht1 Ht2. rewrite !strftime_chars. cbv [String.append]. intros H.
  injection H as Hy3 Hy2 Hy1 Hy0 Hm1 Hm0 Hd1 Hd0 Hh1 Hh0 Hi1 Hi0 Hs1 Hs0 Hr.
  apply (digit_inj (year t1 / 1000) (year t2 / 1000)) in Hy3.
  apply (digit_inj (year t1 / 100) (year t2 / 100)) in Hy2.
  apply (digit_inj (year t1 / 10) (year t2 / 10)) in Hy1.
  apply (digit_inj (year t1) (year t2)) in Hy0.
  apply (digit_inj (month t1 / 10) (month t2 / 10)) in Hm1.
  apply (digit_inj (month t1) (month t2)) in Hm0.
  apply (digit_inj (day t1 / 10) (day t2 / 10)) in Hd1.
  apply (digit_inj (day t1) (day t2)) in Hd0.
  apply (digit_inj (hour t1 / 10) (hour t2 / 10)) in Hh1.
  apply (digit_inj (hour t1) (hour t2)) in Hh0.
  apply (digit_inj (minute t1 / 10) (minute t2 / 10)) in Hi1.
  apply (digit_inj (minute t1) (minute t2)) in Hi0.
  apply (digit_inj (second t1 / 10) (second t2 / 10)) in Hs1.
  apply (digit_inj (second t1) (second t2)) in Hs0.
  destruct Ht1 as (? & ? & ? & ? & ? & ?), Ht2 as (? & ? & ? & ? & ? & ?).
  split; [|exact Hr].
  assert (Ey : year t1 = year t2) by lia.
  assert (Em : month t1 = month t2) by lia.
  assert (Ed : day t1 = day t2) by lia.
  assert (Eh : hour t1 = hour t2) by lia.
  assert (Ei : minute t1 = minute t2) by lia.
  assert (Es : second t1 = second t2) by lia.
  clear -Ey Em Ed Eh Ei Es.
  destruct t1, t2; cbn [year month day hour minute second] in *.
  subst. reflexivity.
Qed.

(** X2.  Stored names are unique to the second and no further: for clock
    readings with a four-digit year, two uploads get the same stored name
    exactly when they have the same filename and the clock showed the same
    second. *)
Theorem unique_filename_same_iff (w : World) (n1 n2 : nat)
    (filename1 filename2 : string) :
  datetime_ok (datetime_now w n1) -> datetime_ok (datetime_now w n2) ->
  (unique_filename_at w n1 filename1 = unique_filename_at w n2 filename2
   <-> datetime_now w n1 = datetime_now w n2 /\ filename1 = filename2).
Proof.
  intros H1 H2. unfold unique_filename_at. split.
  - intros H. apply (inj (String.append "filled_")) in H.
    apply (strftime_append_inj _ _ _ _ H1 H2) in H as [Ht Hr].
    split; [exact Ht|]. apply (inj (String.append "_")) in Hr. exact Hr.
  - intros [-> ->]. reflexivity.
Qed.

Lemma unique_filename_same_iff_witness :
  unique_filename_at example_world_same_second 0 "form.pdf"
  = unique_filename_at example_world_same_second 1 "form.pdf".
Proof.
  apply (unique_filename_same_iff example_world_same_second 0 1
           "form.pdf" "form.pdf").
  - unfold datetime_ok, example_world_same_second.
    cbn [datetime_now year month day hour minute second]. lia.
  - unfold datetime_ok, example_world_same_second.
    cbn [datetime_now year month day hour minute second]. lia.
  - split; reflexivity.
Defined.

(** ** The coordinate mapper on floats *)

Lemma binary_normalize_not_nan m e :
  is_nan (binary_normalize prec emax m e false) = false.
Proof.
  destruct m as [|p|p]; [reflexivity| |];
    unfold binary_normalize, binary_round;
    destruct (shl_align _ _ _) as [mz ez];
    apply binary_round_aux_not_nan; lia.
Qed.

Lemma sub_not_nan a b :
  is_nan a = false -> is_finite b = true -> is_nan (sub a b) = false.
Proof.
  destruct a as [sa|sa| |sa ma ea], b as [sb|sb| |sb mb eb];
    try discriminate; intros _ _; try reflexivity.
  - destruct sa, sb; reflexivity.
  - apply binary_normalize_not_nan.
Qed.

Lemma sub_nan_l b : sub S754_nan b = S754_nan.
Proof. reflexivity. Qed.

Lemma sub_nan_r a : sub a S754_nan = S754_nan.
Proof. destruct a; reflexivity. Qed.

(** X3.  On floats the mapper gives a number whenever the rectangle's y and
    height are finite and the page height is not NaN (it may overflow to an
    infinity, but it does not become NaN), and it gives NaN as soon as one
    of its three inputs is NaN. *)
Theorem convert_anvil_coordinates_nan (anvil_y page_height field_height : float64) :
  (is_nan page_height = false -> is_finite anvil_y = true ->
   is_finite field_height = true ->
   is_nan (convert_anvil_coordinates anvil_y page_height field_height) = false) /\
  (is_nan anvil_y || is_nan page_height || is_nan field_height = true ->
   convert_anvil_coordinates anvil_y page_height field_height = S754_nan).
Proof.
  unfold convert_anvil_coordinates. cbn [num_sub PyNum_float64]. split.
  - intros Hp Hy Hh. apply sub_not_nan; [|exact Hh].
    apply sub_not_nan; assumption.
  - intros H. apply orb_prop in H as [H|H]; [apply orb_prop in H as [H|H]|].
    + destruct anvil_y; try discriminate.
      rewrite sub_nan_r. apply sub_nan_l.
    + destruct page_height; try discriminate. reflexivity.
    + destruct field_height; try discriminate. apply sub_nan_r.
Qed.

Lemma convert_anvil_coordinates_nan_witness :
  is_nan (convert_anvil_coordinates f_128_2 f_792 f_18_1) = false /\
  convert_anvil_coordinates S754_nan f_792 f_18_1 = S754_nan.
Proof.
  destruct (convert_anvil_coordinates_nan f_128_2 f_792 f_18_1) as [H _].
  destruct (convert_anvil_coordinates_nan S754_nan f_792 f_18_1) as [_ H'].
  split; [apply H; reflexivity|apply H'; reflexivity].
Defined.

(** ** Grouping, again *)

(** X4.  The dictionary built from the instructions has a key exactly for
    the page numbers that some instruction names; under each key it holds
    the instructions naming that page, all of them and in input order, so
    no bucket is empty and no instruction is lost. *)
Theorem group_fields_spec (fields_data : list FieldData) (k : Z) :
  (k ∈ dom (group_fields fields_data) <->
   exists field, field ∈ fields_data /\ field_page_num field = k) /\
  (forall l, group_fields fields_data !! k = Some l ->
             l = bucket_of k fields_data /\ l <> []) /\
  (forall field, field ∈ fields_data ->
     field ∈ group_fields fields_data !!! field_page_num field).
Proof.
  split; [|split].
  - rewrite elem_of_dom, group_fields_lookup. split.
    + intros [l Hl]. destruct (bucket_of k fields_data) as [|field l'] eqn:Hb;
        [discriminate|].
      assert (Hin : field ∈ bucket_of k fields_data) by (rewrite Hb; left).
      apply list_elem_of_filter in Hin as [Hk Hin]. eauto.
    + intros (field & Hin & Hk).
      assert (Hb : field ∈ bucket_of k fields_data)
        by (apply list_elem_of_filter; split; assumption).
      destruct (bucket_of k fields_data); [|eauto].
      apply elem_of_nil in Hb. contradiction.
  - intros l Hl. rewrite group_fields_lookup in Hl.
    destruct (bucket_of k fields_data); [discriminate|].
    injection Hl as <-. split; [reflexivity|discriminate].
  - intros field Hin. rewrite group_fields_lookup_total.
    apply list_elem_of_filter. split; [reflexivity|exact Hin].
Qed.

Lemma group_fields_spec_witness :
  group_fields [example_text_field; example_stray_field; example_httpx_field]
    !! 0 = Some [example_text_field; example_httpx_field] /\
  7 ∈ dom (group_fields
             [example_text_field; example_stray_field; example_httpx_field]).
Proof.
  destruct (group_fields_spec
              [example_text_field; example_stray_field; example_httpx_field] 0)
    as (_ & Hbucket & _).
  destruct (group_fields_spec
              [example_text_field; example_stray_field; example_httpx_field] 7)
    as (Hdom & _ & _).
  split.
  - destruct (group_fields _ !! 0) as [l|] eqn:Hl; [|vm_compute in Hl; discriminate].
    destruct (Hbucket l eq_refl) as [-> _]. reflexivity.
  - apply Hdom. exists example_stray_field. split; [|reflexivity].
    right. left.
Defined.

(** ** What a run leaves behind *)

Section Preserves.

Variable w : World.
Variable R : Sys -> Sys -> Prop.
Hypothesis R_refl : forall s, R s s.
Hypothesis R_trans : forall s1 s2 s3, R s1 s2 -> R s2 s3 -> R s1 s3.

Lemma preserves_ret {A} (a : A) : preserves R (ret a).
Proof. intros s r s' H. injection H as _ <-. apply R_refl. Qed.

Lemma preserves_raise {A} (e : exn) : preserves R (@raise A e).
Proof. intros s r s' H. injection H as _ <-. apply R_refl. Qed.

Lemma preserves_bind {A B} (c : M A) (k : A -> M B) :
  preserves R c -> (forall a, preserves R (k a)) -> preserves R (bind c k).
Proof.
  intros Hc Hk s r s' H. unfold bind in H.
  destruct (c s) as [[a|e] s1] eqn:Hcs.
  - apply (R_trans _ s1); [exact (Hc _ _ _ Hcs)|exact (Hk a _ _ _ H)].
  - injection H as _ <-. exact (Hc _ _ _ Hcs).
Qed.

Lemma preserves_try_except {A} (c : M A) (h : exn -> M A) :
  preserves R c -> (forall e, preserves R (h e)) -> preserves R (try_except c h).
Proof.
  intros Hc Hh s r s' H. unfold try_except in H.
  destruct (c s) as [[a|e] s1] eqn:Hcs.
  - injection H as _ <-. exact (Hc _ _ _ Hcs).
  - apply (R_trans _ s1); [exact (Hc _ _ _ Hcs)|exact (Hh e _ _ _ H)].
Qed.

Lemma preserves_for_each {A B} (body : B -> A -> M B) (l : list A) :
  (forall a, a ∈ l -> forall acc, preserves R (body acc a)) ->
  forall acc, preserves R (for_each body l acc).
Proof.
  induction l as [|a l IH]; intros Hbody acc; cbn [for_each].
  - apply preserves_ret.
  - apply preserves_bind; [apply Hbody; left|].
    intros acc'. apply IH. intros a' Ha'. apply Hbody. right. exact Ha'.
Qed.

Lemma preserves_download_file url : preserves R (download_file w url).
Proof.
  unfold download_file. destruct (requests_get w url);
    [apply preserves_ret|apply preserves_raise].
Qed.

Lemma preserves_canvas_drawImage path x y width height p m :
  preserves R (canvas_drawImage w path x y width height p m).
Proof.
  intros s r s' H. unfold canvas_drawImage in H.
  destruct (files s !! path) as [img|];
    [destruct (drawImage_ok w img x y width height)|];
    injection H as _ <-; apply R_refl.
Qed.

Lemma preserves_canvas_setFont psfontname size :
  preserves R (canvas_setFont w psfontname size).
Proof.
  unfold canvas_setFont. destruct (setFont_ok w psfontname size);
    [apply preserves_ret|apply preserves_raise].
Qed.

Lemma preserves_canvas_drawString x y text :
  preserves R (canvas_drawString w x y text).
Proof.
  unfold canvas_drawString. destruct (drawString_ok w x y text);
    [apply preserves_ret|apply preserves_raise].
Qed.

Lemma preserves_draw_text psfontname size x y text :
  preserves R (op1 <- canvas_setFont w psfontname size ;;
               op2 <- canvas_drawString w x y text ;;
               ret [op1; op2]).
Proof.
  apply preserves_bind; [apply preserves_canvas_setFont|]. intros op1.
  apply preserves_bind; [apply preserves_canvas_drawString|]. intros op2.
  apply preserves_ret.
Qed.

(** [create_overlay] changes the state only by reading the clock, saving
    the picture and removing it. *)
Lemma preserves_create_overlay field_data page_width page_height :
  preserves R (now w) ->
  (forall img path, preserves R (Image_save w img path)) ->
  (forall path, preserves R (os_remove path)) ->
  preserves R (create_overlay w field_data page_width page_height).
Proof.
  intros Hnow Hsave Hremove. unfold create_overlay.
  apply preserves_bind; [|intros can; apply preserves_ret].
  destruct (is_image_field field_data); [|apply preserves_draw_text].
  apply preserves_try_except; [|intros e; apply preserves_draw_text].
  apply preserves_bind; [apply preserves_download_file|]. intros img_data.
  apply preserves_bind.
  { destruct (Image_open w img_data); [apply preserves_ret|apply preserves_raise]. }
  intros img. apply preserves_bind; [exact Hnow|]. intros t.
  apply preserves_bind; [apply Hsave|]. intros _.
  apply preserves_bind; [apply preserves_canvas_drawImage|]. intros op.
  apply preserves_bind.
  { intros s r s' H. injection H as _ <-. apply R_refl. }
  intros e. apply preserves_bind; [|intros _; apply preserves_ret].
  destruct e; [apply Hremove|apply preserves_ret].
Qed.

(** [fill_pdf] changes the state only through [create_overlay], and only
    for instructions of the list. *)
Lemma preserves_fill_pdf pdf_url fields_data :
  (forall field, field ∈ fields_data -> forall page_width page_height,
     preserves R (create_overlay w field page_width page_height)) ->
  preserves R (fill_pdf w pdf_url fields_data).
Proof.
  intros Hfield. unfold fill_pdf.
  apply preserves_bind; [apply preserves_download_file|]. intros pdf_bytes.
  apply preserves_bind.
  { destruct (PdfReader w pdf_bytes); [apply preserves_ret|apply preserves_raise]. }
  intros pages. apply preserves_for_each. intros page_num _ pdf_writer.
  unfold process_page.
  apply preserves_bind.
  { destruct (pages !! page_num); [apply preserves_ret|apply preserves_raise]. }
  intros page. apply preserves_bind; [|intros page'; apply preserves_ret].
  case_bool_decide; [|apply preserves_ret].
  apply preserves_for_each. intros field Hin page'.
  apply preserves_bind; [|intros ov; apply preserves_ret].
  apply Hfield. rewrite group_fields_lookup_total in Hin.
  apply list_elem_of_filter in Hin as [_ Hin]. exact Hin.
Qed.

End Preserves.

Section Runs.

Variable w : World.

Lemma create_overlay_text_state field_data page_width page_height :
  startswith_http (field_answer field_data) = false ->
  preserves eq (create_overlay w field_data page_width page_height).
Proof.
  intros Hhttp s r s' H.
  rewrite (create_overlay_text_run w _ _ _ _ Hhttp) in H.
  injection H as _ <-. reflexivity.
Qed.

Lemma create_overlay_posted field_data page_width page_height :
  preserves (fun s s' => posted s' = posted s)
            (create_overlay w field_data page_width page_height).
Proof.
  apply preserves_create_overlay.
  - reflexivity.
  - intros s1 s2 s3 H12 H23. rewrite H23. exact H12.
  - intros s r s' H. injection H as _ <-. reflexivity.
  - intros img path s r s' H. unfold Image_save in H.
    destruct (Image_save_ok w img); injection H as _ <-; reflexivity.
  - intros path s r s' H. injection H as _ <-. reflexivity.
Qed.

Lemma fill_pdf_posted pdf_url fields_data :
  preserves (fun s s' => posted s' = posted s) (fill_pdf w pdf_url fields_data).
Proof.
  apply preserves_fill_pdf.
  - reflexivity.
  - intros s1 s2 s3 H12 H23. rewrite H23. exact H12.
  - intros field _ page_width page_height. apply create_overlay_posted.
Qed.

Lemma rendered_pagesize page_width page_height field_data overlay_page :
  rendered w page_width page_height field_data overlay_page ->
  pagesize overlay_page = (page_width, page_height).
Proof.
  intros (s & s' & H). unfold create_overlay in H. unfold bind at 1 in H.
  match type of H with
  | match ?c s with _ => _ end = _ => destruct (c s) as [[can|e] s1]
  end; [|discriminate].
  injection H as <- _. reflexivity.
Qed.

(** X5.  When every instruction is plain text (no answer starts with
    [http]), [fill_pdf] leaves the working directory, the clock and the
    upload log exactly as they were, whether it returns or fails. *)
Theorem fill_pdf_text_only_state (pdf_url : string) (fields_data : list FieldData)
    (s : Sys) (r : Result (list Page)) (s' : Sys) :
  (forall field, field ∈ fields_data ->
     startswith_http (field_answer field) = false) ->
  fill_pdf w pdf_url fields_data s = (r, s') ->
  s' = s.
Proof.
  intros Htext Hrun. symmetry.
  apply (preserves_fill_pdf w eq (@eq_refl Sys) (@eq_trans Sys)
           pdf_url fields_data) in Hrun; [exact Hrun|].
  intros field Hin page_width page_height.
  apply create_overlay_text_state, Htext, Hin.
Qed.

(** X6.  With no instructions, [fill_pdf] returns the source document
    itself, page for page, and changes nothing. *)
Theorem fill_pdf_no_fields (pdf_url : string) (s : Sys)
    (pdf_bytes : bytes) (pages : list Page) :
  requests_get w pdf_url = Some pdf_bytes ->
  PdfReader w pdf_bytes = Some pages ->
  fill_pdf w pdf_url [] s = (Ok pages, s).
Proof.
  intros Hget Hread.
  destruct (fill_pdf_returns w pdf_url [] s pdf_bytes pages Hget Hread)
    as (out & s' & Hfill).
  { intros i page field _ Hin. apply elem_of_nil in Hin. contradiction. }
  destruct (fill_pdf_pages_inv w _ _ _ _ _ _ _ Hget Hread Hfill)
    as [Hlen Hpages].
  assert (Hs : s = s').
  { apply (preserves_fill_pdf w eq (@eq_refl Sys) (@eq_trans Sys)
             pdf_url []) in Hfill; [exact Hfill|].
    intros field Hin. apply elem_of_nil in Hin. contradiction. }
  subst s'. rewrite Hfill. f_equal. f_equal.
  apply list_eq. intros i.
  destruct (pages !! i) as [page|] eqn:Hpage.
  - destruct (Hpages i page Hpage) as (overlays & Hout & Hall).
    apply Forall2_nil_inv_l in Hall. subst overlays. exact Hout.
  - apply lookup_ge_None. rewrite Hlen. apply lookup_ge_None. exact Hpage.
Qed.

(** X7.  Every page of a document [fill_pdf] returns keeps the media box
    and the content of the source page; what is merged onto it is what was
    merged before, followed by one overlay per instruction naming the page,
    in the order of the input (so a later instruction is drawn over an
    earlier one), each overlay having the size of the page's media box.
    [fill_pdf] returns such a document once the source is fetched and read
    and the canvas accepts every instruction on the page it names. *)
Theorem fill_pdf_overlays_in_order (pdf_url : string)
    (fields_data : list FieldData) (s : Sys) (pdf_bytes : bytes)
    (pages : list Page) :
  requests_get w pdf_url = Some pdf_bytes ->
  PdfReader w pdf_bytes = Some pages ->
  (forall out s',
     fill_pdf w pdf_url fields_data s = (Ok out, s') ->
     forall (i : nat) page,
       pages !! i = Some page ->
       exists page' overlays,
         out !! i = Some page' /\
         content page' = content page /\
         mediabox_width page' = mediabox_width page /\
         mediabox_height page' = mediabox_height page /\
         merged page' = merged page ++ overlays /\
         Forall2 (rendered w (mediabox_width page) (mediabox_height page))
                 (filter (fun field => field_page_num field = Z.of_nat i)
                         fields_data)
                 overlays /\
         Forall (fun overlay_page =>
                   pagesize overlay_page
                   = (mediabox_width page, mediabox_height page)) overlays) /\
  (draws_accepted w fields_data pages ->
   exists out s', fill_pdf w pdf_url fields_data s = (Ok out, s')).
Proof.
  intros Hget Hread. split.
  - intros out s' Hfill i page Hpage.
    destruct (fill_pdf_pages_inv w _ _ _ _ _ _ _ Hget Hread Hfill)
      as [_ Hpages].
    destruct (Hpages i page Hpage) as (overlays & Hout & Hall).
    destruct (merge_pages_snoc page overlays) as (Hc & Hw & Hh & Hm).
    exists (merge_pages page overlays), overlays.
    repeat (split; [assumption|]).
    clear -Hall. induction Hall as [|field ov fs ovs Hr _ IH]; constructor.
    + exact (rendered_pagesize _ _ _ _ Hr).
    + exact IH.
  - intros Hacc. exact (fill_pdf_returns w _ _ _ _ _ Hget Hread Hacc).
Qed.

End Runs.

Lemma fill_pdf_text_only_state_witness :
  snd (fill_pdf example_world "http://example.com/doc.pdf"
         [example_text_field] empty_sys) = empty_sys.
Proof.
  apply (fill_pdf_text_only_state example_world "http://example.com/doc.pdf"
           [example_text_field] empty_sys
           (fst (fill_pdf example_world "http://example.com/doc.pdf"
                   [example_text_field] empty_sys))).
  - intros field Hin. apply list_elem_of_singleton in Hin. subst field.
    reflexivity.
  - apply surjective_pairing.
Defined.

Lemma fill_pdf_no_fields_witness :
  fill_pdf example_world "http://example.com/doc.pdf" [] empty_sys
  = (Ok example_pages, empty_sys).
Proof.
  apply (fill_pdf_no_fields example_world "http://example.com/doc.pdf"
           empty_sys "%PDF" example_pages); reflexivity.
Defined.

Lemma fill_pdf_overlays_in_order_witness :
  exists out s',
    fill_pdf example_world "http://example.com/doc.pdf"
      [example_text_field; example_unreachable_signature] empty_sys
    = (Ok out, s') /\
    exists page' overlays,
      out !! 0%nat = Some page' /\
      merged page' = overlays /\
      length overlays = 2%nat.
Proof.
  destruct (fill_pdf_overlays_in_order example_world
              "http://example.com/doc.pdf"
              [example_text_field; example_unreachable_signature]
              empty_sys "%PDF" example_pages eq_refl eq_refl)
    as [Hpages Hreturns].
  destruct Hreturns as (out & s' & Hfill);
    [apply example_draws_accepted; reflexivity|].
  exists out, s'. split; [exact Hfill|].
  destruct (Hpages out s' Hfill 0%nat (example_page "page 0") eq_refl)
    as (page' & overlays & Hout & _ & _ & _ & Hm & Hall & _).
  exists page', overlays. split; [exact Hout|]. split; [exact Hm|].
  apply Forall2_length in Hall. rewrite <- Hall. reflexivity.
Defined.

(** ** The endpoint, case by case *)

Section EndpointCases.

Variable w : World.

Lemma raises_only_ret {A} (P : exn -> Prop) (a : A) : raises_only P (ret a).
Proof. intros s e s' H. discriminate. Qed.

Lemma raises_only_raise {A} (P : exn -> Prop) (e : exn) :
  P e -> raises_only P (@raise A e).
Proof. intros He s e' s' H. injection H as <- _. exact He. Qed.

Lemma raises_only_bind {A B} (P : exn -> Prop) (c : M A) (k : A -> M B) :
  raises_only P c -> (forall a, raises_only P (k a)) -> raises_only P (bind c k).
Proof.
  intros Hc Hk s e s' H. unfold bind in H.
  destruct (c s) as [[a|e0] s1] eqn:Hcs.
  - exact (Hk a _ _ _ H).
  - injection H as <- _. exact (Hc _ _ _ Hcs).
Qed.

Lemma raises_only_try_except {A} (P : exn -> Prop) (c : M A) (h : exn -> M A) :
  (forall e, raises_only P (h e)) -> raises_only P (try_except c h).
Proof.
  intros Hh s e s' H. unfold try_except in H.
  destruct (c s) as [[a|e0] s1]; [discriminate|].
  exact (Hh e0 _ _ _ H).
Qed.

Lemma raises_only_for_each {A B} (P : exn -> Prop) (body : B -> A -> M B)
    (l : list A) :
  (forall a, a ∈ l -> forall acc, raises_only P (body acc a)) ->
  forall acc, raises_only P (for_each body l acc).
Proof.
  induction l as [|a l IH]; intros Hbody acc; cbn [for_each].
  - apply raises_only_ret.
  - apply raises_only_bind; [apply Hbody; left|].
    intros acc'. apply IH. intros a' Ha'. apply Hbody. right. exact Ha'.
Qed.

Lemma raises_only_draw_text psfontname size x y text :
  raises_only (eq CanvasError)
    (op1 <- canvas_setFont w psfontname size ;;
     op2 <- canvas_drawString w x y text ;;
     ret [op1; op2]).
Proof.
  apply raises_only_bind.
  { unfold canvas_setFont. destruct (setFont_ok w psfontname size);
      [apply raises_only_ret|apply raises_only_raise; reflexivity]. }
  intros op1. apply raises_only_bind; [|intros op2; apply raises_only_ret].
  unfold canvas_drawString. destruct (drawString_ok w x y text);
    [apply raises_only_ret|apply raises_only_raise; reflexivity].
Qed.

(** The only exception that leaves [create_overlay] is the canvas's. *)
Lemma create_overlay_raises field_data page_width page_height :
  raises_only (eq CanvasError)
    (create_overlay w field_data page_width page_height).
Proof.
  unfold create_overlay.
  apply raises_only_bind; [|intros can; apply raises_only_ret].
  destruct (is_image_field field_data); [|apply raises_only_draw_text].
  apply raises_only_try_except. intros e. apply raises_only_draw_text.
Qed.

(** [fill_pdf] fails in three ways: the source is not fetched, it is not
    read, or the canvas refuses a drawing call. *)
Lemma fill_pdf_raises pdf_url fields_data s e s' :
  fill_pdf w pdf_url fields_data s = (Raise e, s') ->
  e = RequestException pdf_url \/ e = PdfReadError \/ e = CanvasError.
Proof.
  apply (raises_only_bind
           (fun e => e = RequestException pdf_url \/ e = PdfReadError
                     \/ e = CanvasError)).
  { unfold download_file. destruct (requests_get w pdf_url);
      [apply raises_only_ret|apply raises_only_raise; left; reflexivity]. }
  intros pdf_bytes. apply raises_only_bind.
  { destruct (PdfReader w pdf_bytes);
      [apply raises_only_ret|apply raises_only_raise; right; left; reflexivity]. }
  intros pages. apply raises_only_for_each. intros page_num Hin pdf_writer.
  apply elem_of_seq in Hin.
  destruct (lookup_lt_is_Some_2 pages page_num) as [page Hpage]; [lia|].
  unfold process_page. rewrite Hpage.
  apply raises_only_bind; [apply raises_only_ret|]. intros page0.
  apply raises_only_bind; [|intros page'; apply raises_only_ret].
  case_bool_decide; [|apply raises_only_ret].
  apply raises_only_for_each. intros field _ page'.
  apply raises_only_bind; [|intros ov; apply raises_only_ret].
  intros s0 e0 s0' Hrun. right. right. symmetry.
  exact (create_overlay_raises _ _ _ _ _ _ Hrun).
Qed.

Lemma upload_posts_once self bucket path file_data s r s' :
  upload w self bucket path file_data s = (r, s') ->
  posted s' = posted s ++
    [(url self +:+ "/storage/v1/object/" +:+ bucket +:+ "/" +:+ path, file_data)]
  /\ files s' = files s /\ clock_reads s' = clock_reads s /\
  r <> Raise SupabaseNotConfigured.
Proof.
  unfold upload.
  destruct (requests_post w _ _ file_data) as [response|].
  - destruct (negb _).
    + intros H. injection H as <- <-. repeat split. discriminate.
    + destruct (json response); intros H; injection H as <- <-;
        repeat split; discriminate.
  - intros H. injection H as <- <-. repeat split. discriminate.
Qed.

Lemma upload_to_supabase_run self pdf_data filename bucket s :
  upload_to_supabase w self pdf_data filename bucket s =
  match upload w (storage self) bucket
          (unique_filename_at w (clock_reads s) filename) pdf_data
          {| files := files s; clock_reads := S (clock_reads s);
             posted := posted s |} with
  | (Ok _, s2) =>
      (Ok (get_public_url (storage self) bucket
             (unique_filename_at w (clock_reads s) filename)), s2)
  | (Raise e, s2) => (Raise e, s2)
  end.
Proof.
  unfold upload_to_supabase. rewrite (bind_Ok (now w) _ s _ _ eq_refl).
  fold (unique_filename_at w (clock_reads s) filename).
  destruct (upload w _ _ _ pdf_data _) as [[ack|e] s2] eqn:Hup.
  - rewrite (bind_Ok _ _ _ _ _ Hup). reflexivity.
  - rewrite (bind_Raise _ _ _ _ _ Hup). reflexivity.
Qed.

(** The endpoint with credentials set, in terms of [fill_pdf] and [upload]. *)
Lemma endpoint_configured SUPABASE_URL SUPABASE_KEY request s :
  SUPABASE_URL <> "" -> SUPABASE_KEY <> "" ->
  fill_pdf_endpoint w SUPABASE_URL SUPABASE_KEY request s =
  match fill_pdf w (pdf_url request) (fields request) s with
  | (Raise e, s1) => (HTTPException 500 e, s1)
  | (Ok filled_pdf, s1) =>
      let self := SupabaseStorageClient_init SUPABASE_URL SUPABASE_KEY in
      let bkt := format_optional (bucket request) in
      let name := unique_filename_at w (clock_reads s1) (filename request) in
      match upload w self bkt name filled_pdf
              {| files := files s1; clock_reads := S (clock_reads s1);
                 posted := posted s1 |} with
      | (Raise e, s2) => (HTTPException 500 e, s2)
      | (Ok _, s2) =>
          (HTTP200 {| success := true; message := "PDF 填寫成功";
                      resp_pdf_url := Some (get_public_url self bkt name);
                      resp_filename := Some (filename request) |}, s2)
      end
  end.
Proof.
  intros Hurl Hkey. unfold fill_pdf_endpoint.
  rewrite (bool_decide_eq_false_2 _ Hurl), (bool_decide_eq_false_2 _ Hkey).
  cbn [orb]. rewrite (bind_Ok (ret tt) _ s tt s eq_refl).
  destruct (fill_pdf w (pdf_url request) (fields request) s)
    as [[filled_pdf|e] s1] eqn:Hfill.
  - rewrite (bind_Ok _ _ _ _ _ Hfill). cbv zeta.
    pose proof (upload_to_supabase_run
                  (PDFFieldFiller_init SUPABASE_URL SUPABASE_KEY) filled_pdf
                  (filename request) (format_optional (bucket request)) s1)
      as Hrun.
    unfold PDFFieldFiller_init in Hrun at 2 3. cbn [storage] in Hrun.
    destruct (upload w _ _ _ filled_pdf _) as [[ack|e] s2].
    + rewrite (bind_Ok _ _ _ _ _ Hrun). reflexivity.
    + rewrite (bind_Raise _ _ _ _ _ Hrun). reflexivity.
  - rewrite (bind_Raise _ _ _ _ _ Hfill). reflexivity.
Qed.

Lemma endpoint_unconfigured SUPABASE_URL SUPABASE_KEY request s :
  SUPABASE_URL = "" \/ SUPABASE_KEY = "" ->
  fill_pdf_endpoint w SUPABASE_URL SUPABASE_KEY request s
  = (HTTPException 500 SupabaseNotConfigured, s).
Proof.
  intros H. unfold fill_pdf_endpoint.
  replace (bool_decide (SUPABASE_URL = "") || bool_decide (SUPABASE_KEY = ""))
    with true; [reflexivity|].
  symmetry. apply orb_true_iff.
  destruct H as [H|H]; [left|right]; apply bool_decide_eq_true_2; exact H.
Qed.

Lemma endpoint_not_configured_iff SUPABASE_URL SUPABASE_KEY request s :
  fst (fill_pdf_endpoint w SUPABASE_URL SUPABASE_KEY request s)
  = HTTPException 500 SupabaseNotConfigured
  <-> SUPABASE_URL = "" \/ SUPABASE_KEY = "".
Proof.
  split; [|intros H; rewrite endpoint_unconfigured by exact H; reflexivity].
  intros H.
  destruct (decide (SUPABASE_URL = "")) as [|Hurl]; [left; assumption|].
  destruct (decide (SUPABASE_KEY = "")) as [|Hkey]; [right; assumption|].
  exfalso. rewrite (endpoint_configured _ _ _ _ Hurl Hkey) in H.
  destruct (fill_pdf w (pdf_url request) (fields request) s)
    as [[filled_pdf|e] s1] eqn:Hfill.
  - cbv zeta in H.
    destruct (upload w _ _ _ filled_pdf _) as [[ack|e] s2] eqn:Hup;
      [discriminate|].
    apply upload_posts_once in Hup as (_ & _ & _ & Hne).
    cbn in H. injection H as ->. contradiction.
  - cbn in H. injection H as ->.
    apply fill_pdf_raises in Hfill. destruct Hfill as [He|[He|He]]; discriminate.
Qed.

End EndpointCases.

(** X8.  The request is refused for missing credentials exactly when the
    storage URL or the key is empty, and then nothing has happened: no
    download, no clock read, no upload. *)
Theorem endpoint_refuses_iff_unconfigured (w : World)
    (SUPABASE_URL SUPABASE_KEY : string) (request : FillPDFRequest) (s : Sys) :
  (fst (fill_pdf_endpoint w SUPABASE_URL SUPABASE_KEY request s)
   = HTTPException 500 SupabaseNotConfigured
   <-> SUPABASE_URL = "" \/ SUPABASE_KEY = "") /\
  (SUPABASE_URL = "" \/ SUPABASE_KEY = "" ->
   snd (fill_pdf_endpoint w SUPABASE_URL SUPABASE_KEY request s) = s).
Proof.
  split; [apply endpoint_not_configured_iff|].
  intros H. rewrite endpoint_unconfigured by exact H. reflexivity.
Qed.

Lemma endpoint_refuses_iff_unconfigured_witness :
  fill_pdf_endpoint example_world "" "secret"
    (example_request [example_text_field]) empty_sys
  = (HTTPException 500 SupabaseNotConfigured, empty_sys).
Proof.
  destruct (endpoint_refuses_iff_unconfigured example_world "" "secret"
              (example_request [example_text_field]) empty_sys) as [Hiff Hstate].
  apply injective_projections; cbn [fst snd];
    [apply Hiff|apply Hstate]; left; reflexivity.
Defined.

(** X9.  With credentials set, a source document that cannot be fetched,
    or cannot be read as a PDF, makes the request fail with status 500 and
    that error; nothing is uploaded and the state is untouched, whatever
    the instructions are. *)
Theorem endpoint_source_failure (w : World)
    (SUPABASE_URL SUPABASE_KEY : string) (request : FillPDFRequest) (s : Sys) :
  SUPABASE_URL <> "" -> SUPABASE_KEY <> "" ->
  (requests_get w (pdf_url request) = None ->
   fill_pdf_endpoint w SUPABASE_URL SUPABASE_KEY request s
   = (HTTPException 500 (RequestException (pdf_url request)), s)) /\
  (forall pdf_bytes,
     requests_get w (pdf_url request) = Some pdf_bytes ->
     PdfReader w pdf_bytes = None ->
     fill_pdf_endpoint w SUPABASE_URL SUPABASE_KEY request s
     = (HTTPException 500 PdfReadError, s)).
Proof.
  intros Hurl Hkey. rewrite (endpoint_configured w _ _ _ _ Hurl Hkey). split.
  - intros Hget. unfold fill_pdf, download_file. rewrite Hget. reflexivity.
  - intros pdf_bytes Hget Hread. unfold fill_pdf, download_file. rewrite Hget.
    rewrite (bind_Ok (ret pdf_bytes) _ s pdf_bytes s eq_refl), Hread.
    reflexivity.
Qed.

Lemma endpoint_source_failure_witness :
  fill_pdf_endpoint example_world "https://example.supabase.co" "secret"
    {| pdf_url := "http://example.com/gone.pdf"; fields := [example_text_field];
       filename := "form.pdf"; bucket := None |} empty_sys
  = (HTTPException 500 (RequestException "http://example.com/gone.pdf"),
     empty_sys).
Proof.
  apply (endpoint_source_failure example_world "https://example.supabase.co"
           "secret"
           {| pdf_url := "http://example.com/gone.pdf";
              fields := [example_text_field];
              filename := "form.pdf"; bucket := None |} empty_sys);
    [discriminate|discriminate|reflexivity].
Defined.

(** X10.  With credentials set, once [fill_pdf] has returned a document,
    the request succeeds exactly when the storage service answers the
    upload of that document with status 200 or 201 and a JSON body; an
    answer with any other status makes it fail with status 500 and the text
    of that answer. *)
Theorem endpoint_succeeds_iff_upload_accepted (w : World)
    (SUPABASE_URL SUPABASE_KEY : string) (request : FillPDFRequest) (s : Sys)
    (filled_pdf : list Page) (s1 : Sys) :
  SUPABASE_URL <> "" -> SUPABASE_KEY <> "" ->
  fill_pdf w (pdf_url request) (fields request) s = (Ok filled_pdf, s1) ->
  let self := SupabaseStorageClient_init SUPABASE_URL SUPABASE_KEY in
  let upload_url :=
    url self +:+ "/storage/v1/object/" +:+ format_optional (bucket request)
    +:+ "/" +:+ unique_filename_at w (clock_reads s1) (filename request) in
  let answer := requests_post w upload_url (upload_headers self) filled_pdf in
  ((exists body, fst (fill_pdf_endpoint w SUPABASE_URL SUPABASE_KEY request s)
                 = HTTP200 body)
   <-> exists response,
         answer = Some response /\
         (status_code response = 200 \/ status_code response = 201) /\
         is_Some (json response)) /\
  (forall response,
     answer = Some response ->
     status_code response <> 200 -> status_code response <> 201 ->
     fst (fill_pdf_endpoint w SUPABASE_URL SUPABASE_KEY request s)
     = HTTPException 500 (UploadFailed (text response))).
Proof.
  intros Hurl Hkey Hfill. cbv zeta.
  rewrite (endpoint_configured w _ _ _ _ Hurl Hkey), Hfill. cbv zeta.
  unfold upload.
  destruct (requests_post w _ _ filled_pdf) as [response|].
  - destruct (decide (status_code response ∈ [200; 201])) as [Hin|Hnin].
    + rewrite (bool_decide_eq_true_2 _ Hin). cbn [negb].
      assert (H2 : status_code response = 200 \/ status_code response = 201).
      { rewrite !elem_of_cons, elem_of_nil in Hin. tauto. }
      split.
      * destruct (json response) as [body|] eqn:Hjson; cbn [fst].
        -- split; [|eauto]. intros _. exists response.
           split; [reflexivity|]. split; [exact H2|]. rewrite Hjson. eauto.
        -- split; [intros [body H]; discriminate|].
           intros (r & Hr & _ & [b Hb]). injection Hr as <-. congruence.
      * intros r Hr H200 H201. injection Hr as <-. tauto.
    + rewrite (bool_decide_eq_false_2 _ Hnin). cbn [negb fst].
      assert (H2 : status_code response <> 200 /\ status_code response <> 201).
      { rewrite !elem_of_cons, elem_of_nil in Hnin. tauto. }
      split.
      * split; [intros [body H]; discriminate|].
        intros (r & Hr & Hs & _). injection Hr as <-. tauto.
      * intros r Hr _ _. injection Hr as <-. reflexivity.
  - cbn [fst]. split.
    + split; [intros [body H]; discriminate|].
      intros (r & Hr & _). discriminate.
    + intros r Hr. discriminate.
Qed.

Lemma endpoint_succeeds_iff_upload_accepted_witness :
  fst (fill_pdf_endpoint example_world_204 "https://example.supabase.co" "secret"
         (example_request [example_text_field]) empty_sys)
  = HTTPException 500 (UploadFailed "body").
Proof.
  destruct (endpoint_succeeds_iff_upload_accepted example_world_204
              "https://example.supabase.co" "secret"
              (example_request [example_text_field]) empty_sys
              [ merge_page (example_page "page 0")
                  (text_overlay example_text_field (of_int 612) f_792);
                example_page "page 1"; example_page "page 2" ]
              empty_sys)
    as [_ Hfail]; [discriminate|discriminate|reflexivity|].
  apply (Hfail (example_response 204)); [reflexivity|discriminate|discriminate].
Defined.

(** X11.  A request sends at most one upload.  It sends none when it is
    refused for missing credentials or when [fill_pdf] fails; otherwise it
    sends exactly one, whose body is the document [fill_pdf] returned, and
    it does so even when the storage service then rejects it. *)
Theorem endpoint_uploads_at_most_once (w : World)
    (SUPABASE_URL SUPABASE_KEY : string) (request : FillPDFRequest)
    (s : Sys) (r : HTTPResult) (s' : Sys) :
  fill_pdf_endpoint w SUPABASE_URL SUPABASE_KEY request s = (r, s') ->
  (posted s' = posted s /\
   (SUPABASE_URL = "" \/ SUPABASE_KEY = "" \/
    exists e s1, fill_pdf w (pdf_url request) (fields request) s = (Raise e, s1)))
  \/
  (exists upload_url filled_pdf s1,
     SUPABASE_URL <> "" /\ SUPABASE_KEY <> "" /\
     fill_pdf w (pdf_url request) (fields request) s = (Ok filled_pdf, s1) /\
     posted s' = posted s ++ [(upload_url, filled_pdf)]).
Proof.
  intros Hrun.
  destruct (decide (SUPABASE_URL = "")) as [Hurl|Hurl].
  { left. rewrite endpoint_unconfigured in Hrun by (left; exact Hurl).
    injection Hrun as _ <-. split; [reflexivity|left; exact Hurl]. }
  destruct (decide (SUPABASE_KEY = "")) as [Hkey|Hkey].
  { left. rewrite endpoint_unconfigured in Hrun by (right; exact Hkey).
    injection Hrun as _ <-. split; [reflexivity|right; left; exact Hkey]. }
  rewrite (endpoint_configured w _ _ _ _ Hurl Hkey) in Hrun.
  destruct (fill_pdf w (pdf_url request) (fields request) s)
    as [[filled_pdf|e] s1] eqn:Hfill.
  - right. cbv zeta in Hrun.
    pose proof (fill_pdf_posted w _ _ _ _ _ Hfill) as Hposted.
    destruct (upload w _ _ _ filled_pdf _) as [[ack|e] s2] eqn:Hup;
      apply upload_posts_once in Hup as (Hup & _);
      injection Hrun as _ <-; cbn [posted] in Hup;
      eexists _, filled_pdf, s1; repeat split; try assumption;
      rewrite Hup, Hposted; reflexivity.
  - left. injection Hrun as _ <-. split.
    + exact (fill_pdf_posted w _ _ _ _ _ Hfill).
    + right. right. eauto.
Qed.

Lemma endpoint_uploads_at_most_once_witness :
  exists upload_url filled_pdf,
    posted (snd (fill_pdf_endpoint example_world_204
                   "https://example.supabase.co" "secret"
                   (example_request [example_text_field]) empty_sys))
    = [(upload_url, filled_pdf)].
Proof.
  destruct (endpoint_uploads_at_most_once example_world_204
              "https://example.supabase.co" "secret"
              (example_request [example_text_field]) empty_sys _ _
              (surjective_pairing _))
    as [[_ [H|[H|(e & s1 & H)]]]|(upload_url & filled_pdf & s1 & _ & _ & _ & H)].
  - discriminate.
  - discriminate.
  - vm_compute in H. discriminate.
  - exists upload_url, filled_pdf. exact H.
Defined.

(** X12.  The health endpoint reports the storage as configured exactly
    when the fill endpoint never refuses a request for missing
    credentials. *)
Theorem health_check_agrees_with_fill (w : World) (isoformat : datetime -> string)
    (SUPABASE_URL SUPABASE_KEY : string) (s : Sys) :
  exists health s',
    health_check w isoformat SUPABASE_URL SUPABASE_KEY s = (Ok health, s') /\
    health_status health = "healthy" /\
    (supabase_configured health = true <->
     forall request s0,
       fst (fill_pdf_endpoint w SUPABASE_URL SUPABASE_KEY request s0)
       <> HTTPException 500 SupabaseNotConfigured).
Proof.
  eexists _, _. split; [reflexivity|]. split; [reflexivity|].
  cbn [supabase_configured]. unfold py_and, py_bool. split.
  - intros H request s0 Hrefused.
    apply endpoint_not_configured_iff in Hrefused.
    destruct (decide (SUPABASE_URL = "")) as [->|Hurl]; [discriminate|].
    rewrite (bool_decide_eq_false_2 _ Hurl) in H. cbn [negb] in H.
    destruct (decide (SUPABASE_KEY = "")) as [->|Hkey]; [discriminate|].
    tauto.
  - intros H.
    pose proof (H {| pdf_url := ""; fields := []; filename := "";
                     bucket := None |} s) as Hne.
    rewrite endpoint_not_configured_iff in Hne.
    destruct (decide (SUPABASE_URL = "")) as [Hurl|Hurl]; [tauto|].
    rewrite (bool_decide_eq_false_2 _ Hurl). cbn [negb].
    destruct (decide (SUPABASE_KEY = "")) as [Hkey|Hkey]; [tauto|].
    rewrite (bool_decide_eq_false_2 _ Hkey). reflexivity.
Qed.

(** ** Image fields *)

(** An image field ends in one of two ways: a step fails and the handler
    runs, or every step succeeds and the picture is the overlay. *)
Lemma create_overlay_image_cases (w : World) (field_data : FieldData)
    (page_width page_height : float64) (s : Sys) :
  startswith_http (field_answer field_data) = true ->
  (picture_fails w field_data page_height /\
   fst (create_overlay w field_data page_width page_height s)
   = label_result w field_data page_width page_height)
  \/
  (~ picture_fails w field_data page_height /\
   exists img,
     fst (create_overlay w field_data page_width page_height s)
     = Ok (image_overlay img field_data page_width page_height)).
Proof.
  intros Hhttp. unfold picture_fails.
  destruct (requests_get w (field_answer field_data)) as [img_data|] eqn:Hget.
  - destruct (Image_open w img_data) as [img|] eqn:Hopen.
    + destruct (Image_save_ok w img) eqn:Hsave.
      * destruct (drawImage_ok w img
                    (add (x (field_rect field_data)) (of_int 2))
                    (add (sub (sub page_height (y (field_rect field_data)))
                              (height (field_rect field_data))) (of_int 2))
                    (sub (width (field_rect field_data)) (of_int 4))
                    (sub (height (field_rect field_data)) (of_int 4))) eqn:Hdraw.
        -- right. split.
           ++ intros [H|(d & Hd & [H|(i & Hi & [H|H])])]; congruence.
           ++ exists img.
              rewrite (create_overlay_drawn_run w _ _ _ _ _ _
                         Hhttp Hget Hopen Hsave Hdraw). reflexivity.
        -- left. split.
           ++ right. exists img_data. split; [reflexivity|].
              right. exists img. split; [exact Hopen|right; exact Hdraw].
           ++ rewrite (create_overlay_draw_fails w _ _ _ _ _ _
                         Hhttp Hget Hopen Hsave Hdraw). reflexivity.
      * left. split.
        -- right. exists img_data. split; [reflexivity|].
           right. exists img. split; [exact Hopen|left; exact Hsave].
        -- rewrite (create_overlay_save_fails w _ _ _ _ _ _
                      Hhttp Hget Hopen Hsave). reflexivity.
    + left. split.
      * right. exists img_data. split; [reflexivity|left; exact Hopen].
      * rewrite (create_overlay_decode_fails w _ _ _ _ _ Hhttp Hget Hopen).
        reflexivity.
  - left. split; [left; reflexivity|].
    rewrite (create_overlay_fetch_fails w _ _ _ _ Hhttp Hget). reflexivity.
Qed.

(** X13.  When the picture of an image field is fetched, decoded, saved and
    drawn, the overlay holds that picture alone, in the field's rectangle
    inset by 2 on every side ([x + 2], [y + 2], [width - 4], [height - 4]),
    keeping its aspect ratio; the clock has been read once, and the
    working directory is as before except that nothing is left at the
    temporary path, so it is unchanged when that path was free. *)
Theorem create_overlay_image_drawn (w : World) (field_data : FieldData)
    (page_width page_height : float64) (s : Sys) (img_data : bytes) (img : Image) :
  startswith_http (field_answer field_data) = true ->
  requests_get w (field_answer field_data) = Some img_data ->
  Image_open w img_data = Some img ->
  Image_save_ok w img = true ->
  drawImage_ok w img
    (add (x (field_rect field_data)) (of_int 2))
    (add (sub (sub page_height (y (field_rect field_data)))
              (height (field_rect field_data))) (of_int 2))
    (sub (width (field_rect field_data)) (of_int 4))
    (sub (height (field_rect field_data)) (of_int 4)) = true ->
  create_overlay w field_data page_width page_height s =
  (Ok (image_overlay img field_data page_width page_height),
   {| files := delete (temp_img_path w s) (files s);
      clock_reads := S (clock_reads s);
      posted := posted s |}) /\
  (files s !! temp_img_path w s = None ->
   files (snd (create_overlay w field_data page_width page_height s)) = files s).
Proof.
  intros Hhttp Hget Hopen Hsave Hdraw.
  pose proof (create_overlay_drawn_run w field_data page_width page_height s
                img_data img Hhttp Hget Hopen Hsave Hdraw) as Hrun.
  split; [exact Hrun|].
  intros Hfresh. rewrite Hrun. cbn [snd files].
  apply delete_id. exact Hfresh.
Qed.

Lemma create_overlay_image_drawn_witness :
  create_overlay example_world_same_second example_undrawable_signature
    (of_int 612) f_792 empty_sys
  = (Ok (image_overlay (PILImage "PNG") example_undrawable_signature
           (of_int 612) f_792),
     {| files := delete (temp_img_path example_world_same_second empty_sys) ∅;
        clock_reads := 1; posted := [] |}).
Proof.
  apply (create_overlay_image_drawn example_world_same_second
           example_undrawable_signature (of_int 612) f_792 empty_sys
           "PNG" (PILImage "PNG")); reflexivity.
Defined.

(** X14.  For a field whose answer starts with [http], the overlay is the
    error label exactly when one of the four steps fails (fetching the
    picture, decoding it, saving it to the temporary path, or drawing it in
    the inset rectangle) and the canvas accepts the label; [create_overlay]
    raises exactly when a step fails and the canvas refuses the label, and
    what it raises is then the canvas's error. *)
Theorem create_overlay_error_label_iff (w : World) (field_data : FieldData)
    (page_width page_height : float64) (s : Sys) :
  startswith_http (field_answer field_data) = true ->
  (fst (create_overlay w field_data page_width page_height s)
   = Ok (error_overlay field_data page_width page_height)
   <-> picture_fails w field_data page_height /\
       label_drawable w field_data page_height = true) /\
  ((exists e, fst (create_overlay w field_data page_width page_height s) = Raise e)
   <-> picture_fails w field_data page_height /\
       label_drawable w field_data page_height = false) /\
  (forall e,
     fst (create_overlay w field_data page_width page_height s) = Raise e ->
     e = CanvasError).
Proof.
  intros Hhttp.
  destruct (create_overlay_image_cases w field_data page_width page_height s Hhttp)
    as [[Hfails Hrun]|[Hdrawn [img Hrun]]]; rewrite Hrun.
  - unfold label_result.
    destruct (label_drawable w field_data page_height).
    + split; [tauto|]. split; [|discriminate].
      split; [intros [e He]; discriminate|intros [_ H]; discriminate].
    + split; [split; [discriminate|intros [_ H]; discriminate]|].
      split; [split; [tauto|eauto]|].
      intros e He. injection He as <-. reflexivity.
  - split; [split; [discriminate|tauto]|].
    split; [split; [intros [e He]; discriminate|tauto]|discriminate].
Qed.

Lemma create_overlay_error_label_iff_witness :
  fst (create_overlay example_world example_undrawable_signature
         (of_int 612) f_792 empty_sys)
  = Ok (error_overlay example_undrawable_signature (of_int 612) f_792) /\
  fst (create_overlay example_world example_huge_signature
         (of_int 612) f_792 empty_sys)
  = Raise CanvasError.
Proof.
  split.
  - apply (create_overlay_error_label_iff example_world
             example_undrawable_signature (of_int 612) f_792 empty_sys eq_refl).
    split; [|reflexivity].
    right. exists "PNG". split; [reflexivity|].
    right. exists (PILImage "PNG"). split; [reflexivity|].
    right. reflexivity.
  - destruct (create_overlay_error_label_iff example_world
                example_huge_signature (of_int 612) f_792 empty_sys eq_refl)
      as (_ & Hraises & Honly).
    destruct (proj2 Hraises) as [e He]; [split; [left|]; reflexivity|].
    rewrite He. f_equal. exact (Honly e He).
Defined.
